(** * Planner → validator → sandboxed executor: a shallow embedding of [app.py]

    The development follows the layout of the program:
    - Python values as they come out of [json.loads], and the few pieces of
      the Python runtime the program relies on (truthiness, [str()], slices,
      [strip()], subscripting);
    - [validate_plan], the closed tool grammar;
    - [deterministic_demo_plan] and [groq_plan], the planner;
    - the in-sandbox runner ([dom_preview], [click_by_text], [type_by_label],
      [main]) over an abstract browser engine;
    - [run_in_docker], the orchestrator, over an abstract container runtime;
    - the plan selection of [api_run].

    Whatever lives outside the program (the completion service, the browser,
    the container runtime, the JSON codec, the file system under the
    runner) is an interface whose operations may raise; the program's own
    control flow is written out.

    Conventions. A Python [str] is a [string], one character of the model
    for one character of the text; [bytes] are kept as a [string] too. An
    [int] is a [Z]. Files are finite maps from names to contents. The
    statements come after all definitions, grouped by component; the
    standalone script [shibuya.py] has no part in the pipeline and is not
    modelled. *)

From Stdlib Require Import ZArith Ascii String DecimalString.
From stdpp Require Import base option list gmap strings.

#[local] Set Warnings "-register-all".

(* ===================================================================== *)
(** ** Python values and exceptions *)
(* ===================================================================== *)

(** A value produced by [json.loads]. A [dict] is a finite map with string
    keys (a later duplicate key overwrites an earlier one). A float is kept
    as the text Python's [repr] prints for it: the program does no float
    arithmetic, it only tests floats for truth and prints them. *)
Inductive json : Type :=
  | JNull
  | JBool (b : bool)
  | JInt (n : Z)
  | JFloat (repr : string)
  | JStr (s : string)
  | JArr (l : list json)
  | JObj (d : gmap string json).

(** The exceptions that occur, each with what [str(e)] needs. *)
Inductive exn : Type :=
  | TypeError (msg : string)
  | KeyError (key : string)
  | AttributeError (msg : string)
  | ValueError (msg : string)
  | JSONDecodeError (msg : string)
  | FileNotFoundError (path : string)
  | ExternalError (msg : string).

(** Outcome of a Python expression: it raises or it returns. *)
Inductive result (A : Type) : Type :=
  | Raise (e : exn)
  | Return (a : A).
Arguments Raise {A} e.
Arguments Return {A} a.

Definition rbind {A B} (r : result A) (k : A → result B) : result B :=
  match r with
  | Raise e => Raise e
  | Return a => k a
  end.

#[export] Instance result_ret : MRet result := fun _ a => Return a.
#[export] Instance result_bind : MBind result := fun _ _ k r => rbind r k.

(** [try: r  except Exception: h]. *)
Definition try_except {A} (r : result A) (h : A) : A :=
  match r with
  | Raise _ => h
  | Return a => a
  end.

Module Py.

Definition nl : string := String (ascii_of_nat 10) EmptyString.
Definition tab : string := String (ascii_of_nat 9) EmptyString.
Definition dq : string := String (ascii_of_nat 34) EmptyString.

(** [str(n)] for an [int]. *)
Definition str_int (n : Z) : string := NilZero.string_of_int (Z.to_int n).
Definition str_nat (n : nat) : string := str_int (Z.of_nat n).

(** [str(e)] for an exception; a [KeyError] prints the [repr] of its key. *)
Definition str_exn (e : exn) : string :=
  match e with
  | TypeError m | AttributeError m | ValueError m
  | JSONDecodeError m | ExternalError m => m
  | KeyError k => "'" +:+ k +:+ "'"
  | FileNotFoundError p => "[Errno 2] No such file or directory: '" +:+ p +:+ "'"
  end.

(** [bool(v)]. *)
Definition truthy (v : json) : bool :=
  match v with
  | JNull => false
  | JBool b => b
  | JInt n => negb (n =? 0)%Z
  | JFloat r => negb (String.eqb r "0.0" || String.eqb r "-0.0")
  | JStr s => negb (String.eqb s EmptyString)
  | JArr l => negb (Nat.eqb (length l) 0)
  | JObj d => negb (bool_decide (d = ∅))
  end.

(** [a or b]. *)
Definition or_else (a b : json) : json := if truthy a then a else b.

(** [v == s] for a string literal [s]. *)
Definition eq_str (v : json) (s : string) : bool :=
  match v with
  | JStr t => String.eqb t s
  | _ => false
  end.

(** [v[k]] with a string subscript. *)
Definition getitem (v : json) (k : string) : result json :=
  match v with
  | JObj d =>
      match d !! k with
      | Some x => Return x
      | None => Raise (KeyError k)
      end
  | JStr _ => Raise (TypeError "string indices must be integers, not 'str'")
  | JArr _ => Raise (TypeError "list indices must be integers or slices, not str")
  | JNull => Raise (TypeError "'NoneType' object is not subscriptable")
  | JBool _ => Raise (TypeError "'bool' object is not subscriptable")
  | JInt _ => Raise (TypeError "'int' object is not subscriptable")
  | JFloat _ => Raise (TypeError "'float' object is not subscriptable")
  end.

(** [d.get(k, dflt)] on a [dict]. *)
Definition dict_get (d : gmap string json) (k : string) (dflt : json) : json :=
  default dflt (d !! k).

(** [v.get(k, dflt)]: only a [dict] has the method. *)
Definition get (v : json) (k : string) (dflt : json) : result json :=
  match v with
  | JObj d => Return (dict_get d k dflt)
  | _ => Raise (AttributeError "object has no attribute 'get'")
  end.

(** Characters: first [n], all but the first [n]. *)
Fixpoint take (n : nat) (s : string) : string :=
  match n, s with
  | S n', String c s' => String c (take n' s')
  | _, _ => EmptyString
  end.

Fixpoint drop (n : nat) (s : string) : string :=
  match n, s with
  | S n', String _ s' => drop n' s'
  | _, _ => s
  end.

(** [s[:j]]: a negative bound counts from the end, and bounds are clipped
    to the string. *)
Definition slice_to (j : Z) (s : string) : string :=
  let len := Z.of_nat (String.length s) in
  let j' := if (j <? 0)%Z then Z.max 0 (j + len) else Z.min j len in
  take (Z.to_nat j') s.

(** [s[i:]]. *)
Definition slice_from (i : Z) (s : string) : string :=
  let len := Z.of_nat (String.length s) in
  let i' := if (i <? 0)%Z then Z.max 0 (i + len) else Z.min i len in
  drop (Z.to_nat i') s.

(** [s.replace(a, b)] for one-character [a] and [b]. *)
Fixpoint replace_char (a b : ascii) (s : string) : string :=
  match s with
  | EmptyString => EmptyString
  | String c s' =>
      String (if Ascii.eqb c a then b else c) (replace_char a b s')
  end.

(** [c.isspace()] on the characters below 256. *)
Definition isspace (c : ascii) : bool :=
  let n := nat_of_ascii c in
  ((9 <=? n) && (n <=? 13)) || ((28 <=? n) && (n <=? 32))
  || (n =? 133) || (n =? 160).

Fixpoint lstrip (s : string) : string :=
  match s with
  | String c s' => if isspace c then lstrip s' else s
  | EmptyString => EmptyString
  end.

(** [rstrip] keeps a character when it is not a space or when something
    is kept after it. *)
Fixpoint rstrip (s : string) : string :=
  match s with
  | EmptyString => EmptyString
  | String c s' =>
      match rstrip s' with
      | EmptyString => if isspace c then EmptyString else String c EmptyString
      | r => String c r
      end
  end.

(** [s.strip()]. *)
Definition strip (s : string) : string := rstrip (lstrip s).

(** [v.strip()]: only a [str] has the method. *)
Definition strip_value (v : json) : result string :=
  match v with
  | JStr s => Return (strip s)
  | _ => Raise (AttributeError "object has no attribute 'strip'")
  end.

(** [pathlib] on POSIX. [Path(d)] keeps the root of [d] and its parts:
    the pieces between slashes, without the empty ones and the [.] ones. *)
Definition is_slash (c : ascii) : bool := Ascii.eqb c "/".

Fixpoint split_slash (s : string) : list string :=
  match s with
  | EmptyString => [EmptyString]
  | String c s' =>
      if is_slash c then EmptyString :: split_slash s'
      else match split_slash s' with
           | p :: ps => String c p :: ps
           | [] => [String c EmptyString]
           end
  end.

Fixpoint leading_slashes (s : string) : nat :=
  match s with
  | String c s' => if is_slash c then S (leading_slashes s') else 0
  | EmptyString => 0
  end.

(** Exactly two leading slashes are kept as they are; one, or three and
    more, make the root [/]. *)
Definition path_root (s : string) : string :=
  match leading_slashes s with
  | 0 => EmptyString
  | 2 => "//"
  | _ => "/"
  end.

Definition path_parts (s : string) : list string :=
  List.filter (λ p, negb (String.eqb p EmptyString) && negb (String.eqb p "."))
              (split_slash s).

Fixpoint join_parts (parts : list string) : string :=
  match parts with
  | [] => EmptyString
  | p :: rest =>
      match rest with
      | [] => p
      | _ :: _ => p +:+ "/" +:+ join_parts rest
      end
  end.

(** [str(Path(d) / name)] for a file name [name]: one part, as are all
    the names the program joins to a directory (a literal file name, a run
    id, a run id followed by a suffix). *)
Definition path_join (d name : string) : string :=
  path_root d +:+ join_parts (path_parts d ++ [name]).

End Py.

(** What Python prints for a [list] or a [dict] inside an f-string goes
    through the [repr] of the elements (quoting, escapes, insertion order);
    that rendering is taken as given. *)
Class Repr := { repr_container : json → string }.

(** [str(v)], as the f-strings use it. *)
Definition py_str `{Repr} (v : json) : string :=
  match v with
  | JNull => "None"
  | JBool true => "True"
  | JBool false => "False"
  | JInt n => Py.str_int n
  | JFloat r => r
  | JStr s => s
  | JArr _ | JObj _ => repr_container v
  end.

(* ===================================================================== *)
(** ** Tool schema: [validate_plan] *)
(* ===================================================================== *)

Definition ALLOWED_TOOLS : gset string := {[ "go"; "click"; "type" ]}%string.

(** [tool not in ALLOWED_TOOLS]. Membership in a [set] hashes the operand
    first: a [list] or a [dict] is unhashable and the test raises. *)
Definition not_in_allowed_tools (tool : json) : result bool :=
  match tool with
  | JStr s => Return (negb (bool_decide (s ∈ ALLOWED_TOOLS)))
  | JArr _ => Raise (TypeError "unhashable type: 'list'")
  | JObj _ => Raise (TypeError "unhashable type: 'dict'")
  | JNull | JBool _ | JInt _ | JFloat _ => Return true
  end.

(** [set(args.keys()) != ks]. *)
Definition keys_differ (args : gmap string json) (ks : gset string) : bool :=
  negb (bool_decide (dom args = ks)).

(** The body of the [for] loop for step [i]: [Some msg] stands for
    [return False, msg], [None] for falling through to the next step. *)
Definition check_step `{Repr} (i : nat) (step : json) : result (option string) :=
  match step with
  | JObj d =>
      let tool := Py.dict_get d "tool" JNull in
      let args := Py.dict_get d "args" (JObj ∅) in
      bad ← not_in_allowed_tools tool;
      if bad : bool then
        Return (Some ("Step " +:+ Py.str_nat i +:+ ": tool '" +:+ py_str tool
                        +:+ "' not allowed."))
      else
        match args with
        | JObj a =>
            if Py.eq_str tool "go" then
              if keys_differ a {[ "url"%string ]} then
                Return (Some ("Step " +:+ Py.str_nat i
                                +:+ ": go expects args {url} only."))
              else Return None
            else if Py.eq_str tool "click" then
              if keys_differ a {[ "text"%string ]} then
                Return (Some ("Step " +:+ Py.str_nat i
                                +:+ ": click expects args {text} only."))
              else Return None
            else if Py.eq_str tool "type" then
              if keys_differ a {[ "label"; "value" ]}%string then
                Return (Some ("Step " +:+ Py.str_nat i
                                +:+ ": type expects args {label, value} only."))
              else Return None
            else Return None
        | _ =>
            Return (Some ("Step " +:+ Py.str_nat i
                            +:+ ": args must be an object."))
        end
  | _ => Return (Some ("Step " +:+ Py.str_nat i +:+ " must be an object."))
  end.

(** [for i, step in enumerate(plan): ...] followed by [return True, "ok"]. *)
Fixpoint validate_steps `{Repr} (i : nat) (plan : list json)
  : result (bool * string) :=
  match plan with
  | [] => Return (true, "ok")
  | step :: rest =>
      verdict ← check_step i step;
      match verdict with
      | Some msg => Return (false, msg)
      | None => validate_steps (S i) rest
      end
  end.

Definition validate_plan `{Repr} (plan : json) : result (bool * string) :=
  match plan with
  | JArr steps =>
      if Nat.eqb (length steps) 0 then Return (false, "Plan is empty.")
      else if Nat.ltb 10 (length steps) then
        Return (false, "Plan too long (max 10 steps).")
      else validate_steps 0 steps
  | _ => Return (false, "Plan must be a list.")
  end.

(* ===================================================================== *)
(** ** Environment: configuration and outside services *)
(* ===================================================================== *)

(** The Groq client. One call takes the model name and the two message
    texts and gives [completion.choices[0].message.content] (a [str], or
    [None]), unless the call raises. The vision call takes the model, the
    prompt and the base64 image. *)
Record Groq := {
  chat_completions_create : string → string → string → result json;
  vision_completions_create : string → string → string → result json;
}.

(** Module-level configuration read from [os.getenv], and [groq_client]
    ([None] when [GROQ_API_KEY] is empty). *)
Class Env := {
  GROQ_TEXT_MODEL : string;
  GROQ_VISION_MODEL : string;
  EXECUTOR_IMAGE : string;
  ARTIFACTS_DIR : string;
  DOCKER_WORK_DIR : string;
  DEFAULT_PRODUCT_URL : string;
  DOM_PREVIEW_LIMIT : Z;
  groq_client : option Groq;
}.

(** [json.loads], [json.dumps] and [base64.b64encode]. *)
Class Codec := {
  json_loads : string → result json;
  json_dumps : json → string;
  b64encode : string → string;
}.

(** A [dict] literal. *)
Definition dict (kvs : list (string * json)) : json := JObj (list_to_map kvs).

(* ===================================================================== *)
(** ** Planner *)
(* ===================================================================== *)

Definition deterministic_demo_plan `{Env} (note_text : string) : json :=
  JArr [
    dict [("tool", JStr "go"); ("args", dict [("url", JStr DEFAULT_PRODUCT_URL)])];
    dict [("tool", JStr "click"); ("args", dict [("text", JStr "Add to cart")])];
    dict [("tool", JStr "click"); ("args", dict [("text", JStr "View cart")])];
    dict [("tool", JStr "type");
          ("args", dict [("label", JStr "Order special instructions");
                         ("value", JStr note_text)])]
  ]%string.

(** The system message of [groq_plan]. *)
Definition planner_system `{Env} (note_text : string) : string :=
  let q := Py.dq in
  "You are a planning agent. Output ONLY valid JSON (no markdown). "
  +:+ "Return a list of steps. Each step must be one of:" +:+ Py.nl
  +:+ "  {" +:+ q +:+ "tool" +:+ q +:+ ":" +:+ q +:+ "go" +:+ q +:+ ","
      +:+ q +:+ "args" +:+ q +:+ ":{" +:+ q +:+ "url" +:+ q +:+ ":"
      +:+ q +:+ "https://..." +:+ q +:+ "}}" +:+ Py.nl
  +:+ "  {" +:+ q +:+ "tool" +:+ q +:+ ":" +:+ q +:+ "click" +:+ q +:+ ","
      +:+ q +:+ "args" +:+ q +:+ ":{" +:+ q +:+ "text" +:+ q +:+ ":"
      +:+ q +:+ "Visible button/link text" +:+ q +:+ "}}" +:+ Py.nl
  +:+ "  {" +:+ q +:+ "tool" +:+ q +:+ ":" +:+ q +:+ "type" +:+ q +:+ ","
      +:+ q +:+ "args" +:+ q +:+ ":{" +:+ q +:+ "label" +:+ q +:+ ":"
      +:+ q +:+ "Field label or placeholder" +:+ q +:+ ","
      +:+ q +:+ "value" +:+ q +:+ ":" +:+ q +:+ "text" +:+ q +:+ "}}" +:+ Py.nl
  +:+ "Rules:" +:+ Py.nl
  +:+ "- Use DOM-first actions." +:+ Py.nl
  +:+ "- Keep steps <= 6." +:+ Py.nl
  +:+ "- Use chikarahouses.com." +:+ Py.nl
  +:+ "- Do not proceed to payment submission." +:+ Py.nl
  +:+ "- Target this flow:" +:+ Py.nl
  +:+ "  1) go to product page" +:+ Py.nl
  +:+ "  2) click 'Add to cart'" +:+ Py.nl
  +:+ "  3) click 'View cart'" +:+ Py.nl
  +:+ "  4) type the note into 'Order special instructions'" +:+ Py.nl
  +:+ Py.nl
  +:+ "Product page: " +:+ DEFAULT_PRODUCT_URL +:+ Py.nl
  +:+ "Note text to type: " +:+ note_text +:+ Py.nl.

(** The inner [_call] of [groq_plan]: one completion, then [.strip()] on
    its content. *)
Definition planner_call `{Env} (client : Groq) (system user_goal : string)
  : result string :=
  content ← chat_completions_create client GROQ_TEXT_MODEL system user_goal;
  Py.strip_value content.

(** [groq_plan]. The completion call is awaited before the [try] block is
    entered, so what it raises leaves the function; [json.loads] and
    [validate_plan] run inside the [try]. *)
Definition groq_plan `{Env, Codec, Repr} (user_goal note_text : string)
  : result json :=
  match groq_client with
  | None => Return (deterministic_demo_plan note_text)
  | Some client =>
      content ← planner_call client (planner_system note_text) user_goal;
      Return
        (try_except
           (plan ← json_loads content;
            '(ok, msg) ← validate_plan plan;
            if ok : bool then Return plan
            else Return (deterministic_demo_plan note_text))
           (deterministic_demo_plan note_text))
  end.

(* ===================================================================== *)
(** ** Stateful code: a state threaded through calls that may raise *)
(* ===================================================================== *)

(** A computation over a state [S]: it returns or raises, and in both cases
    leaves the state it reached (what was done before a raise stays done). *)
Definition St (S A : Type) : Type := S → result A * S.

#[export] Instance St_ret {S} : MRet (St S) := fun _ a s => (Return a, s).
#[export] Instance St_bind {S} : MBind (St S) := fun _ _ k m s =>
  match m s with
  | (Raise e, s') => (Raise e, s')
  | (Return a, s') => k a s'
  end.

(** A pure expression that may raise. *)
Definition lift {S A} (r : result A) : St S A := fun s => (r, s).

(** [try: m  except Exception as e: ...], handing the handler its choice. *)
Definition try_catch {S A} (m : St S A) : St S (exn + A) := fun s =>
  match m s with
  | (Raise e, s') => (Return (inl e), s')
  | (Return a, s') => (Return (inr a), s')
  end.

(* ===================================================================== *)
(** ** Executor: the runner inside the sandbox ([PLAYWRIGHT_RUNNER]) *)
(* ===================================================================== *)

Definition REQ_PATH : string := "/work/request.json".
Definition OUT_PATH : string := "/work/result.json".
Definition FINAL_SCREENSHOT_PATH : string := "/work/final.png".

(** The runner reads [DOM_PREVIEW_LIMIT] from its own environment, where
    [run_in_docker] has put the host's value. *)
Definition dom_preview `{Env} (html : string) : string :=
  let html := Py.replace_char (ascii_of_nat 9) " "
                (Py.replace_char (ascii_of_nat 10) " " html) in
  Py.slice_to DOM_PREVIEW_LIMIT html.

(** How the runner addresses elements of the page. *)
Inductive Locator : Type :=
  | get_by_role (role : string) (name : json)
  | get_by_label (label : json)
  | get_by_placeholder (label : json)
  | locator (selector : string)
  | sub_locator (parent : Locator) (selector : string).

(** The browser engine. [Browser] is the whole state the engine keeps
    (process, context, page); every awaited call may raise and may change
    it. Timeouts are in milliseconds. *)
Class Playwright := {
  Browser : Type;
  chromium_launch : bool → St Browser unit;
  new_context : Z → Z → St Browser unit;
  new_page : St Browser unit;
  page_goto : json → string → Z → St Browser unit;
  locator_count : Locator → St Browser nat;
  first_click : Locator → Z → St Browser unit;
  first_fill : Locator → json → Z → St Browser unit;
  page_url : Browser → string;
  page_title : St Browser string;
  page_screenshot : St Browser string;
  page_content : St Browser string;
  context_close : St Browser unit;
  browser_close : St Browser unit;
}.

(** One entry of [out["steps"]]. *)
Record StepOut := {
  so_idx : nat;
  so_tool : json;
  so_args : json;
  so_ok : bool;
  so_error : option string;
  so_url : option string;
  so_title : option string;
}.

(** The [out] dictionary of [main]. *)
Record Out := {
  out_ok : bool;
  out_steps : list StepOut;
  final_url : option string;
  final_title : option string;
  final_dom_preview : option string;
  final_screenshot : string;
}.

Definition opt_str (o : option string) : json := from_option JStr JNull o.

Definition step_out_json (so : StepOut) : json :=
  dict [("idx", JInt (Z.of_nat (so_idx so))); ("tool", so_tool so);
        ("args", so_args so); ("ok", JBool (so_ok so));
        ("error", opt_str (so_error so)); ("url", opt_str (so_url so));
        ("title", opt_str (so_title so))]%string.

Definition out_json (out : Out) : json :=
  dict [("ok", JBool (out_ok out));
        ("steps", JArr (step_out_json <$> out_steps out));
        ("final_url", opt_str (final_url out));
        ("final_title", opt_str (final_title out));
        ("final_dom_preview", opt_str (final_dom_preview out));
        ("final_screenshot", JStr (final_screenshot out))]%string.

(** What can go wrong when a file is written with [open(path, "w")] and a
    write into it. [open] may fail, and then the file is as it was. Once
    the file is open it has been truncated, and a failure while the text
    goes out (a character the encoding refuses, a full disk) leaves the
    characters written so far. *)
Inductive WriteFault : Type :=
  | OpenFails (e : exn)
  | WriteFails (e : exn) (written : nat).

(** The file system under the runner: given the files as they are, a path
    and the text to write, whether the write goes wrong and how. *)
Class Disk := {
  write_fault : gmap string string → string → string → option WriteFault;
}.

Section Runner.
Context {env : Env} {codec : Codec} {fmt : Repr} {engine : Playwright}
        {disk : Disk}.

(** The sandbox: the browser and the files under the mounted work area. *)
Record Sandbox := { browser : Browser; files : gmap string string }.

(** An awaited browser call, inside the sandbox. *)
Definition await {A} (op : St Browser A) : St Sandbox A := fun s =>
  let '(r, b) := op (browser s) in
  (r, {| browser := b; files := files s |}).

Definition read_text (path : string) : St Sandbox string := fun s =>
  match files s !! path with
  | Some t => (Return t, s)
  | None => (Raise (FileNotFoundError path), s)
  end.

(** [with open(path, "w") as f:] and the writing of [content] into [f]. *)
Definition write_file (path content : string) : St Sandbox unit := fun s =>
  match write_fault (files s) path content with
  | None =>
      (Return (),
       {| browser := browser s; files := <[path := content]> (files s) |})
  | Some (OpenFails e) => (Raise e, s)
  | Some (WriteFails e written) =>
      (Raise e,
       {| browser := browser s;
          files := <[path := Py.take written content]> (files s) |})
  end.

Definition get_url : St Sandbox string := fun s => (Return (page_url (browser s)), s).

Definition click_by_text (text : json) : St Sandbox unit :=
  let loc := get_by_role "button" text in
  n ← await (locator_count loc);
  let loc := if Nat.eqb n 0 then get_by_role "link" text else loc in
  n ← await (locator_count loc);
  let loc := if Nat.eqb n 0 then locator ("text=" +:+ py_str text) else loc in
  await (first_click loc 15000).

Definition type_by_label (label value : json) : St Sandbox unit :=
  let loc := get_by_label label in
  n ← await (locator_count loc);
  let loc := if Nat.eqb n 0 then get_by_placeholder label else loc in
  n ← await (locator_count loc);
  let loc :=
    if Nat.eqb n 0 then
      sub_locator (sub_locator (locator ("text=" +:+ py_str label)) "..")
                  "textarea, input"
    else loc in
  await (first_fill loc value 15000).

(** The dispatch on the tool at the head of the [try] block. *)
Definition step_action (tool args : json) : St Sandbox unit :=
  if Py.eq_str tool "go" then
    url ← lift (Py.getitem args "url");
    await (page_goto url "domcontentloaded" 45000)
  else if Py.eq_str tool "click" then
    text ← lift (Py.getitem args "text");
    click_by_text text
  else if Py.eq_str tool "type" then
    label ← lift (Py.getitem args "label");
    value ← lift (Py.getitem args "value");
    type_by_label label value
  else
    lift (Raise (ValueError ("Unknown tool: " +:+ py_str tool))).

(** The [except] handler, applied to [step_out] as it is when the
    exception arrives. *)
Definition step_failed (so : StepOut) (e : exn) : StepOut :=
  {| so_idx := so_idx so; so_tool := so_tool so; so_args := so_args so;
     so_ok := false; so_error := Some (Py.str_exn e);
     so_url := so_url so; so_title := so_title so |}.

(** One turn of the loop up to [out["steps"].append(step_out)]. The two
    subscripts are outside the [try]. Inside it, [step_out["url"]] is
    assigned before the title is awaited, so an exception of
    [page.title()] finds the URL already recorded: the [try] block is
    written as its two stretches, with the same handler. *)
Definition run_step (idx : nat) (step : json) : St Sandbox StepOut :=
  tool ← lift (Py.getitem step "tool");
  args ← lift (Py.getitem step "args");
  let step_out :=
    {| so_idx := idx; so_tool := tool; so_args := args; so_ok := true;
       so_error := None; so_url := None; so_title := None |} in
  r ← try_catch (step_action tool args;; get_url);
  match r with
  | inl e => mret (step_failed step_out e)
  | inr url =>
      let step_out :=
        {| so_idx := idx; so_tool := tool; so_args := args; so_ok := true;
           so_error := None; so_url := Some url; so_title := None |} in
      r ← try_catch (await page_title);
      match r with
      | inl e => mret (step_failed step_out e)
      | inr title =>
          mret {| so_idx := idx; so_tool := tool; so_args := args;
                  so_ok := true; so_error := None; so_url := Some url;
                  so_title := Some title |}
      end
  end.

(** [out] after [step_out] was appended; the handler has cleared
    [out["ok"]] when the step failed. *)
Definition record_step (out : Out) (so : StepOut) : Out :=
  {| out_ok := if so_ok so then out_ok out else false;
     out_steps := out_steps out ++ [so];
     final_url := final_url out;
     final_title := final_title out;
     final_dom_preview := final_dom_preview out;
     final_screenshot := final_screenshot out |}.

(** [for idx, step in enumerate(plan): ...  if not step_out["ok"]: break]. *)
Fixpoint run_steps (idx : nat) (plan : list json) (out : Out) : St Sandbox Out :=
  match plan with
  | [] => mret out
  | step :: rest =>
      so ← run_step idx step;
      let out := record_step out so in
      if so_ok so then run_steps (S idx) rest out else mret out
  end.

(** What follows the loop, up to [out["final_dom_preview"] = ...]. The
    screenshot call returns the image and, given a path, writes it there
    itself. *)
Definition final_capture (out : Out) : St Sandbox Out :=
  url ← get_url;
  title ← await page_title;
  png ← await page_screenshot;
  write_file FINAL_SCREENSHOT_PATH png;;
  html ← await page_content;
  mret {| out_ok := out_ok out;
          out_steps := out_steps out;
          final_url := Some url;
          final_title := Some title;
          final_dom_preview := Some (dom_preview html);
          final_screenshot := final_screenshot out |}.

Definition initial_out : Out :=
  {| out_ok := true; out_steps := []; final_url := None; final_title := None;
     final_dom_preview := None; final_screenshot := "artifacts/final.png" |}.

(** What Python iterates over in [for ... in enumerate(plan)]: the items
    of a list, the keys of a dict, the characters of a string. (The order
    of the keys plays no part: the first key, a string, already fails the
    subscript [step["tool"]].) *)
Definition iterate (plan : json) : result (list json) :=
  match plan with
  | JArr l => Return l
  | JObj d => Return (JStr <$> (map_to_list d).*1)
  | JStr s => Return ((λ c, JStr (String c EmptyString)) <$> list_ascii_of_string s)
  | JNull => Raise (TypeError "'NoneType' object is not iterable")
  | JBool _ => Raise (TypeError "'bool' object is not iterable")
  | JInt _ => Raise (TypeError "'int' object is not iterable")
  | JFloat _ => Raise (TypeError "'float' object is not iterable")
  end.

(** The loop and the capture after it, from a browser with its page open. *)
Definition run_plan (plan : list json) : St Sandbox Out :=
  out ← run_steps 0 plan initial_out;
  final_capture out.

Definition main : St Sandbox unit :=
  text ← read_text REQ_PATH;
  req ← lift (json_loads text);
  plan ← lift (Py.getitem req "plan");
  h ← lift (Py.get req "headless" (JBool true));
  let headless := Py.truthy h in
  await (chromium_launch headless);;
  await (new_context 1200 900);;
  await new_page;;
  steps ← lift (iterate plan);
  out ← run_plan steps;
  await context_close;;
  await browser_close;;
  write_file OUT_PATH (json_dumps (out_json out)).

End Runner.

(* ===================================================================== *)
(** ** Executor: [run_in_docker] on the host *)
(* ===================================================================== *)

(** What the host hands to the operating system: the text of the runner
    program, [Path.resolve()], and the container run. The container sees
    one directory, the run's work area mounted at [/work]; the run gives
    the exit code and the two decoded streams, or fails to start. *)
Class Executor := {
  PLAYWRIGHT_RUNNER : string;
  path_resolve : string → string;
  subprocess_exec :
    list string → St (gmap string string) (Z * string * string);
}.

(** A row of the [runs] table. *)
Record RunRow := {
  created_at : string;
  user_goal : string;
  plan_json : string;
  result_json : option string;
}.

(** The host: work areas under [DOCKER_WORK_DIR] by run id and file name,
    the files of [ARTIFACTS_DIR] by path, and the [runs] table by id. *)
Record Host := {
  work : gmap string (gmap string string);
  artifacts : gmap string string;
  runs : gmap string RunRow;
}.

(** The dictionary [run_in_docker] returns. Both failure returns have the
    same four keys; they differ by their values only. *)
Inductive ExecOut : Type :=
  | ExecFailed (docker_returncode : Z) (stdout stderr : string)
  | ExecOk (run_id : string) (result : json)
           (screenshot_path output_json_path : string)
           (logs_stdout logs_stderr : string).

Section Orchestrator.
Context {env : Env} {codec : Codec} {os : Executor}.

(** The run's work area; [mkdir(parents=True, exist_ok=True)] keeps an
    existing one as it is. *)
Definition work_dir (run_id : string) (h : Host) : gmap string string :=
  default ∅ (work h !! run_id).

Definition work_write (run_id name content : string) : St Host unit := fun h =>
  (Return (),
   {| work := <[run_id := <[name := content]> (work_dir run_id h)]> (work h);
      artifacts := artifacts h; runs := runs h |}).

Definition work_lookup (run_id name : string) : St Host (option string) :=
  fun h => (Return (work_dir run_id h !! name), h).

Definition artifact_write (path content : string) : St Host unit := fun h =>
  (Return (),
   {| work := work h; artifacts := <[path := content]> (artifacts h);
      runs := runs h |}).

Definition artifact_read (path : string) : St Host string := fun h =>
  match artifacts h !! path with
  | Some c => (Return c, h)
  | None => (Raise (FileNotFoundError path), h)
  end.

(** [create_subprocess_exec] and [communicate()] on the run's work area. *)
Definition docker (run_id : string) (cmd : list string)
  : St Host (Z * string * string) := fun h =>
  let '(r, d) := subprocess_exec cmd (work_dir run_id h) in
  (r, {| work := <[run_id := d]> (work h);
         artifacts := artifacts h; runs := runs h |}).

Definition docker_cmd (run_id : string) : list string :=
  ["docker"; "run"; "--rm";
   "-v"; path_resolve (Py.path_join DOCKER_WORK_DIR run_id) +:+ ":/work";
   "-e"; "DOM_PREVIEW_LIMIT=" +:+ Py.str_int DOM_PREVIEW_LIMIT;
   EXECUTOR_IMAGE;
   "python"; "/work/runner.py"]%string.

Definition run_in_docker (run_id : string) (plan : json) (headless : bool)
  : St Host ExecOut :=
  work_write run_id "request.json"
    (json_dumps (dict [("plan", plan); ("headless", JBool headless)]%string));;
  work_write run_id "runner.py" PLAYWRIGHT_RUNNER;;
  '(returncode, stdout, stderr) ← docker run_id (docker_cmd run_id);
  if negb (returncode =? 0)%Z then
    mret (ExecFailed returncode
            (Py.slice_from (-3000) stdout) (Py.slice_from (-3000) stderr))
  else
    result_file ← work_lookup run_id "result.json";
    final_file ← work_lookup run_id "final.png";
    match result_file, final_file with
    | Some result_text, Some final_bytes =>
        let final_out := Py.path_join ARTIFACTS_DIR (run_id +:+ "_final.png") in
        let json_out := Py.path_join ARTIFACTS_DIR (run_id +:+ "_output.json") in
        artifact_write final_out final_bytes;;
        artifact_write json_out result_text;;
        text ← artifact_read json_out;
        result ← lift (json_loads text);
        mret (ExecOk run_id result final_out json_out
                (Py.slice_from (-2000) stdout) (Py.slice_from (-2000) stderr))
    | _, _ =>
        mret (ExecFailed returncode
                (Py.slice_from (-2000) stdout)
                (Py.slice_from (-3000)
                   (stderr +:+ Py.nl +:+ "Missing result.json or final.png")))
    end.

End Orchestrator.

(* ===================================================================== *)
(** ** Vision check and the two API routes *)
(* ===================================================================== *)

Definition VISION_PROMPT : string :=
  "You are verifying a demo run. "
  +:+ "Confirm if this screenshot shows:" +:+ Py.nl
  +:+ "1) A cart page ('Your cart')" +:+ Py.nl
  +:+ "2) The product 'ZenPath Hardcover Goal Notebook 3'" +:+ Py.nl
  +:+ "3) A textarea labeled 'Order special instructions' containing some text"
  +:+ Py.nl
  +:+ "Reply with a short verification summary.".

Definition DEFAULT_NOTE : string := "Shibuya Tokyo Cyberpunk demo note.".
Definition DEFAULT_GOAL : string :=
  "Demo: add product to cart, open cart, and type special instructions.".

(** The success payload of [api_run]. *)
Record Payload := {
  p_run_id : string;
  p_plan : json;
  p_final_screenshot : string;
  p_final_output_json : string;
  p_result : json;
  p_vision_summary : option string;
  p_logs : string * string;
}.

(** What a route hands back to Flask. *)
Inductive Response : Type :=
  | PlanResponse (ok : bool) (plan : json) (note : string)
  | RunFailed (status : Z) (exec_out : ExecOut)
  | RunDone (payload : Payload).

Definition exec_out_json (o : ExecOut) : json :=
  match o with
  | ExecFailed rc out err =>
      dict [("ok", JBool false); ("docker_returncode", JInt rc);
            ("stdout", JStr out); ("stderr", JStr err)]%string
  | ExecOk rid res shot doc out err =>
      dict [("ok", JBool true); ("run_id", JStr rid); ("result", res);
            ("final_screenshot", JStr shot); ("final_output_json", JStr doc);
            ("logs", dict [("stdout", JStr out); ("stderr", JStr err)])]%string
  end.

Definition payload_json (p : Payload) : json :=
  dict [("ok", JBool true); ("run_id", JStr (p_run_id p)); ("plan", p_plan p);
        ("final_screenshot", JStr (p_final_screenshot p));
        ("final_output_json", JStr (p_final_output_json p));
        ("result", p_result p);
        ("vision_summary", opt_str (p_vision_summary p));
        ("logs", dict [("stdout", JStr (p_logs p).1);
                       ("stderr", JStr (p_logs p).2)])]%string.

Section Routes.
Context {env : Env} {codec : Codec} {fmt : Repr} {os : Executor}.

Definition groq_vision_verify (image_path : string) : St Host (option string) :=
  match groq_client with
  | None => mret None
  | Some client =>
      data ← artifact_read image_path;
      let b64 := b64encode data in
      mret (try_except
              (content ← vision_completions_create client GROQ_VISION_MODEL
                           VISION_PROMPT b64;
               text ← Py.strip_value content;
               Return (Some text))
              None)
  end.

(** The pattern [(data.get(key) or EMPTY).strip()], [EMPTY] the empty string. *)
Definition text_field (data : json) (key : string) : result string :=
  v ← Py.get data key JNull;
  Py.strip_value (Py.or_else v (JStr EmptyString)).

(** [s or dflt] on strings. *)
Definition str_or (s dflt : string) : string :=
  if String.eqb s EmptyString then dflt else s.

(** [INSERT INTO runs (id, created_at, user_goal, plan_json)]; the id is
    the primary key. *)
Definition db_insert (id : string) (row : RunRow) : St Host unit := fun h =>
  match runs h !! id with
  | Some _ => (Raise (ExternalError "UNIQUE constraint failed: runs.id"), h)
  | None =>
      (Return (), {| work := work h; artifacts := artifacts h;
                     runs := <[id := row]> (runs h) |})
  end.

(** [UPDATE runs SET result_json=? WHERE id=?]. *)
Definition db_set_result (id text : string) : St Host unit := fun h =>
  let set_result row :=
    {| created_at := created_at row; user_goal := user_goal row;
       plan_json := plan_json row; result_json := Some text |} in
  (Return (), {| work := work h; artifacts := artifacts h;
                 runs := alter set_result id (runs h) |}).

Definition api_plan (body : json) : result Response :=
  let data := Py.or_else body (JObj ∅) in
  goal ← text_field data "goal";
  note ← text_field data "note_text";
  let note_text := str_or note DEFAULT_NOTE in
  plan ← groq_plan goal note_text;
  '(ok, msg) ← validate_plan plan;
  Return (PlanResponse ok plan msg).

(** The head of [api_run], down to the plan that will be executed:
    the request fields, the planner when the request carries no list,
    the validator, and the demo plan when the validator says no. *)
Definition select_plan (body : json) : result (string * string * json) :=
  let data := Py.or_else body (JObj ∅) in
  goal ← text_field data "goal";
  note ← text_field data "note_text";
  let note_text := str_or note DEFAULT_NOTE in
  plan ← Py.get data "plan" JNull;
  let goal := str_or goal DEFAULT_GOAL in
  plan ← match plan with
         | JArr _ => Return plan
         | _ => groq_plan goal note_text
         end;
  '(ok, msg) ← validate_plan plan;
  let plan := if ok : bool then plan else deterministic_demo_plan note_text in
  Return (goal, note_text, plan).

(** The tail of [api_run], from the outcome of the container run on. *)
Definition finish_run (run_id : string) (plan : json) (exec_out : ExecOut)
  : St Host Response :=
  match exec_out with
  | ExecFailed _ _ _ =>
      db_set_result run_id (json_dumps (exec_out_json exec_out));;
      mret (RunFailed 500 exec_out)
  | ExecOk _ result final_ss final_doc out err =>
      vision_summary ← groq_vision_verify final_ss;
      let payload :=
        {| p_run_id := run_id; p_plan := plan;
           p_final_screenshot := final_ss; p_final_output_json := final_doc;
           p_result := result; p_vision_summary := vision_summary;
           p_logs := (out, err) |} in
      db_set_result run_id (json_dumps (payload_json payload));;
      mret (RunDone payload)
  end.

(** [api_run]; [run_id] and [now] are the values drawn from [uuid4] and
    the clock. *)
Definition api_run (body : json) (run_id now : string) : St Host Response :=
  '(goal, note_text, plan) ← lift (select_plan body);
  db_insert run_id {| created_at := now; user_goal := goal;
                      plan_json := json_dumps plan; result_json := None |};;
  exec_out ← run_in_docker run_id plan true;
  finish_run run_id plan exec_out.

End Routes.

(* ===================================================================== *)
(** ** The step grammar and the properties the statements below speak of *)
(* ===================================================================== *)

(** The three step shapes. *)
Definition go_step (url : string) : json :=
  dict [("tool", JStr "go"); ("args", dict [("url", JStr url)])]%string.
Definition click_step (text : string) : json :=
  dict [("tool", JStr "click"); ("args", dict [("text", JStr text)])]%string.
Definition type_step (label value : string) : json :=
  dict [("tool", JStr "type");
        ("args", dict [("label", JStr label); ("value", JStr value)])]%string.

(** The key set a tool requires. *)
Definition required_keys (tool : string) : option (gset string) :=
  if String.eqb tool "go" then Some {[ "url"%string ]}
  else if String.eqb tool "click" then Some {[ "text"%string ]}
  else if String.eqb tool "type" then Some {[ "label"; "value" ]}%string
  else None.

(** A step record conforms when its tool is one of the three and its
    [args] is a record with exactly the keys of that tool. *)
Definition conforms (step : json) : Prop :=
  ∃ d t a, step = JObj d ∧ d !! "tool"%string = Some (JStr t)
           ∧ d !! "args"%string = Some (JObj a)
           ∧ required_keys t = Some (dom a).

(** What Python cannot hash among the values of [json.loads]. *)
Definition unhashable (v : json) : Prop :=
  match v with
  | JArr _ | JObj _ => True
  | _ => False
  end.

(** The tool of a step record can be hashed: it is absent, or neither a
    list nor a dict. *)
Definition hashable_tool (step : json) : Prop :=
  match step with
  | JObj d =>
      match d !! "tool"%string with
      | Some (JArr _) | Some (JObj _) => False
      | _ => True
      end
  | _ => True
  end.

(** [c] does not occur in [s]. *)
Fixpoint free_of (c : ascii) (s : string) : Prop :=
  match s with
  | EmptyString => True
  | String c' s' => c' ≠ c ∧ free_of c s'
  end.

(** Newlines and tabs turned into single spaces, character by character. *)
Fixpoint blanks_for_breaks (s : string) : string :=
  match s with
  | EmptyString => EmptyString
  | String c s' =>
      String (if Ascii.eqb c (ascii_of_nat 10) || Ascii.eqb c (ascii_of_nat 9)
              then " "%char else c)
             (blanks_for_breaks s')
  end.

(** Where [s[i:]] starts. *)
Definition slice_start (i : Z) (s : string) : nat :=
  let len := Z.of_nat (String.length s) in
  Z.to_nat (if (i <? 0)%Z then Z.max 0 (i + len) else Z.min i len).

(** [t] is what [s] ends with. *)
Definition ends_with (s t : string) : Prop := ∃ p, s = p +:+ t.

(** The entry [so] is the record of [step], run as number [idx]. *)
Definition records (idx : nat) (step : json) (so : StepOut) : Prop :=
  so_idx so = idx ∧ Py.getitem step "tool" = Return (so_tool so)
  ∧ Py.getitem step "args" = Return (so_args so).

(** The entries [sos] record the first steps of [plan], one each, in the
    order of the plan, numbered from [idx]. *)
Definition in_plan_order (idx : nat) (plan : list json) (sos : list StepOut)
  : Prop :=
  ∀ i so, sos !! i = Some so →
          ∃ step, plan !! i = Some step ∧ records (idx + i) step so.

(** What is said of the DOM preview of a page whose markup is [html]: it
    is the markup with breaks blanked, cut to the limit; it is no longer
    than the limit; it holds no newline and no tab. *)
Definition dom_preview_claim `{Env} (html : string) : Prop :=
  dom_preview html = Py.take (Z.to_nat DOM_PREVIEW_LIMIT) (blanks_for_breaks html)
  ∧ (Z.of_nat (String.length (dom_preview html)) ≤ DOM_PREVIEW_LIMIT)%Z
  ∧ free_of (ascii_of_nat 10) (dom_preview html)
  ∧ free_of (ascii_of_nat 9) (dom_preview html).

(** The three reasons [validate_plan] gives before it looks at any step. *)
Definition length_reason (msg : string) : Prop :=
  msg = "Plan must be a list."%string ∨ msg = "Plan is empty."%string
  ∨ msg = "Plan too long (max 10 steps)."%string.

(** The prepared work area and the container run: the part of
    [run_in_docker] before the exit code is looked at. *)
Definition launch `{Env, Codec, Executor}
    (run_id : string) (plan : json) (headless : bool)
  : St Host (Z * string * string) :=
  work_write run_id "request.json"
    (json_dumps (dict [("plan", plan); ("headless", JBool headless)]%string));;
  work_write run_id "runner.py" PLAYWRIGHT_RUNNER;;
  docker run_id (docker_cmd run_id).

(** The two durable names of a run. *)
Definition final_out_path `{Env} (run_id : string) : string :=
  Py.path_join ARTIFACTS_DIR (run_id +:+ "_final.png").
Definition json_out_path `{Env} (run_id : string) : string :=
  Py.path_join ARTIFACTS_DIR (run_id +:+ "_output.json").

(** A computation whose every exception prints as a text that is not
    empty. *)
Definition with_text {S A} (m : St S A) : Prop :=
  ∀ s e s', m s = (Raise e, s') → Py.str_exn e ≠ EmptyString.



(** A computation of the runner that leaves the files of the work area
    alone, whatever its outcome. *)
Definition keeps_files `{Playwright} {A} (m : St Sandbox A) : Prop :=
  ∀ s r s', m s = (r, s') → files s' = files s.

(** A computation of the runner that leaves the result file alone. *)
Definition keeps_result `{Playwright} {A} (m : St Sandbox A) : Prop :=
  ∀ s r s', m s = (r, s') → files s' !! OUT_PATH = files s !! OUT_PATH.

(* ===================================================================== *)
(** ** Concrete environments, used to run the definitions *)
(* ===================================================================== *)

Module Demo.

Definition repr : Repr := {| repr_container := λ _, "[...]"%string |}.

(** A completion service that answers every call with [content]. *)
Definition answering (content : json) : Groq :=
  {| chat_completions_create := λ _ _ _, Return content;
     vision_completions_create := λ _ _ _, Return content |}.

(** A completion service that cannot be reached. *)
Definition unreachable : Groq :=
  {| chat_completions_create := λ _ _ _, Raise (ExternalError "Connection error.");
     vision_completions_create := λ _ _ _, Raise (ExternalError "Connection error.") |}.

(** The defaults of [app.py], with a given client and preview limit. *)
Definition env (client : option Groq) (limit : Z) : Env :=
  {| GROQ_TEXT_MODEL := "llama-3.1-8b-instant";
     GROQ_VISION_MODEL := "meta-llama/llama-4-scout-17b-16e-instruct";
     EXECUTOR_IMAGE := "chikar-playwright-executor:latest";
     ARTIFACTS_DIR := "artifacts";
     DOCKER_WORK_DIR := "docker_work";
     DEFAULT_PRODUCT_URL :=
       "https://chikarahouses.com/products/hardcover-bound-notebook-3";
     DOM_PREVIEW_LIMIT := limit;
     groq_client := client |}.

Definition request_doc : json :=
  dict [("plan", JArr [go_step "https://shop.test/p/1";
                       click_step "Checkout now";
                       click_step "View cart"]);
        ("headless", JBool true)]%string.

Definition result_doc : json :=
  dict [("ok", JBool true); ("steps", JArr []);
        ("final_screenshot", JStr "artifacts/final.png")]%string.

(** A codec that knows two documents by name. *)
Definition codec : Codec :=
  {| json_loads := λ text,
       if String.eqb text "<request>" then Return request_doc
       else if String.eqb text "<result>" then Return result_doc
       else Raise (JSONDecodeError "Expecting value: line 1 column 1 (char 0)");
     json_dumps := λ _, "<document>"%string;
     b64encode := λ data, data |}.

(** A one-page shop. The state is the URL shown. The page has an
    "Add to cart" button, a "View cart" link and a labelled note field;
    a click on anything else runs into the timeout. *)
Definition shop : Playwright :=
  {| Browser := string;
     chromium_launch := λ _ b, (Return (), b);
     new_context := λ _ _ b, (Return (), b);
     new_page := λ b, (Return (), "about:blank"%string);
     page_goto := λ url _ _ b,
       match url with
       | JStr u => (Return (), u)
       | _ => (Raise (ExternalError "url: expected string"), b)
       end;
     locator_count := λ loc b,
       match loc with
       | get_by_role role name =>
           if String.eqb role "button" && Py.eq_str name "Add to cart"
           then (Return 1, b)
           else if String.eqb role "link" && Py.eq_str name "View cart"
           then (Return 1, b)
           else (Return 0, b)
       | get_by_label label =>
           if Py.eq_str label "Order special instructions"
           then (Return 1, b) else (Return 0, b)
       | _ => (Return 0, b)
       end;
     first_click := λ loc _ b,
       match loc with
       | get_by_role _ _ => (Return (), b)
       | _ => (Raise (ExternalError "Timeout 15000ms exceeded."), b)
       end;
     first_fill := λ loc _ _ b,
       match loc with
       | get_by_label _ => (Return (), b)
       | _ => (Raise (ExternalError "Timeout 15000ms exceeded."), b)
       end;
     page_url := λ b, b;
     page_title := λ b, (Return "Shop"%string, b);
     page_screenshot := λ b, (Return "PNG"%string, b);
     page_content := λ b,
       (Return ("<html>" +:+ Py.nl +:+ Py.tab +:+ "<body>cart</body>"
                  +:+ Py.nl +:+ "</html>"), b);
     context_close := λ b, (Return (), b);
     browser_close := λ b, (Return (), b) |}.

(** A container run with a given exit code that leaves the work area as
    it found it. *)
Definition idle (returncode : Z) : Executor :=
  {| PLAYWRIGHT_RUNNER := "import json";
     path_resolve := λ p, ("/srv/app/" +:+ p)%string;
     subprocess_exec := λ _ d, (Return (returncode, "out", "Traceback"), d)%string |}.

(** A container run that exits with 0 and leaves both files. *)
Definition working : Executor :=
  {| PLAYWRIGHT_RUNNER := "import json";
     path_resolve := λ p, ("/srv/app/" +:+ p)%string;
     subprocess_exec := λ _ d,
       (Return (0%Z, EmptyString, EmptyString),
        <["final.png" := "PNG"]> (<["result.json" := "<result>"]> d))%string |}.

Definition empty_host : Host := {| work := ∅; artifacts := ∅; runs := ∅ |}.

(** A disk on which every write goes through. *)
Definition disk : Disk := {| write_fault := λ _ _ _, None |}.

(** A sandbox whose work area holds the request. *)
Definition sandbox : @Sandbox shop :=
  {| browser := (EmptyString : @Browser shop);
     files := {[ REQ_PATH := "<request>"%string ]} |}.

(** The shop with its page open. *)
Definition open_page : @Sandbox shop :=
  {| browser := ("about:blank"%string : @Browser shop); files := ∅ |}.

End Demo.

(** More environments and inputs. *)
Module Fixtures.


(** A host without the [docker] program. *)
Definition no_docker : Executor :=
  {| PLAYWRIGHT_RUNNER := "import json";
     path_resolve := λ p, ("/srv/app/" +:+ p)%string;
     subprocess_exec := λ _ d, (Raise (FileNotFoundError "docker"), d) |}.

(** A host that already holds the artifacts and the row of run "aaaaaaaaaa". *)
Definition busy_host : Host :=
  {| work := ∅;
     artifacts := {[ "artifacts/aaaaaaaaaa_final.png" := "OLD PNG";
                     "artifacts/aaaaaaaaaa_output.json" := "<result>" ]}%string;
     runs := {[ "aaaaaaaaaa"%string :=
                  {| created_at := "2025-12-31T23:59:59"; user_goal := "Earlier run";
                     plan_json := "<document>"; result_json := Some "<document>"%string |} ]} |}.

(** A disk that fills up while the result document is written: four
    characters get out. *)
Definition full_disk : Disk :=
  {| write_fault := λ _ path _,
       if String.eqb path OUT_PATH
       then Some (WriteFails (ExternalError "[Errno 28] No space left on device") 4)
       else None |}.


(** The shop of [Demo] with an engine whose click failure carries no
    message. *)
Definition mute : Playwright :=
  {| Browser := @Browser Demo.shop;
     chromium_launch := @chromium_launch Demo.shop;
     new_context := @new_context Demo.shop;
     new_page := @new_page Demo.shop;
     page_goto := @page_goto Demo.shop;
     locator_count := @locator_count Demo.shop;
     first_click := λ _ _ b, (Raise (ExternalError EmptyString), b);
     first_fill := @first_fill Demo.shop;
     page_url := @page_url Demo.shop;
     page_title := @page_title Demo.shop;
     page_screenshot := @page_screenshot Demo.shop;
     page_content := @page_content Demo.shop;
     context_close := @context_close Demo.shop;
     browser_close := @browser_close Demo.shop |}.



Definition mute_page : @Sandbox mute :=
  {| browser := ("about:blank"%string : @Browser mute); files := ∅ |}.

(** A step record with a tool outside the grammar. *)
Definition scroll_step : json :=
  dict [("tool", JStr "scroll"); ("args", dict [])]%string.

(** Request bodies of the two routes. *)
Definition empty_body : json := JObj ∅.
Definition body_with_plan (plan : json) : json :=
  dict [("goal", JStr "  Buy the notebook "); ("note_text", JStr "Gift wrap");
        ("plan", plan)]%string.

End Fixtures.

(* ===================================================================== *)
(** * Properties *)
(* ===================================================================== *)

(** ** Strings: prefixes, suffixes, slices *)

Section Strings.
Implicit Types (s t : string) (n : nat) (c : ascii).

Lemma str_app_cons c s t : String c s +:+ t = String c (s +:+ t).
Proof. reflexivity. Qed.

Lemma str_length_app s t :
  String.length (s +:+ t) = String.length s + String.length t.
Proof.
  induction s as [|c s IH]; [done|].
  rewrite str_app_cons. simpl. by rewrite IH.
Qed.

Lemma str_app_assoc s t u : (s +:+ t) +:+ u = s +:+ (t +:+ u).
Proof.
  induction s as [|c s IH]; [done|].
  rewrite !str_app_cons. by f_equal.
Qed.

(** A path in a directory is a text that depends on the directory alone,
    followed by the file name. *)
Lemma join_parts_snoc parts :
  ∃ p, ∀ name, Py.join_parts (parts ++ [name]) = p +:+ name.
Proof.
  induction parts as [|q parts [p IH]]; [by exists EmptyString|].
  exists (q +:+ "/" +:+ p). intros name. simpl.
  destruct (parts ++ [name]) as [|x l] eqn:Hl; [by destruct parts|].
  rewrite <- Hl, IH. by rewrite !str_app_assoc.
Qed.

Lemma path_join_prefix d : ∃ p, ∀ name, Py.path_join d name = p +:+ name.
Proof.
  destruct (join_parts_snoc (Py.path_parts d)) as [p Hp].
  exists (Py.path_root d +:+ p). intros name. unfold Py.path_join.
  by rewrite Hp, str_app_assoc.
Qed.

(** The directories of a default installation and some that [pathlib]
    rewrites. *)
Lemma path_join_examples :
  Py.path_join "artifacts" "0123456789_final.png" = "artifacts/0123456789_final.png"%string
  ∧ Py.path_join "." "0123456789_final.png" = "0123456789_final.png"%string
  ∧ Py.path_join EmptyString "0123456789_final.png" = "0123456789_final.png"%string
  ∧ Py.path_join "./artifacts/" "0123456789_final.png" = "artifacts/0123456789_final.png"%string
  ∧ Py.path_join "/srv//data/./runs" "a.png" = "/srv/data/runs/a.png"%string
  ∧ Py.path_join "/" "a.png" = "/a.png"%string
  ∧ Py.path_join "//" "a.png" = "//a.png"%string
  ∧ Py.path_join "///tmp" "a.png" = "/tmp/a.png"%string
  ∧ Py.path_join "../out" "a.png" = "../out/a.png"%string.
Proof. repeat split. Qed.

Lemma str_app_inv_head s t u : s +:+ t = s +:+ u → t = u.
Proof.
  induction s as [|c s IH]; [done|].
  rewrite !str_app_cons. intros [=]. auto.
Qed.

Lemma length_take n s : String.length (Py.take n s) = Nat.min n (String.length s).
Proof.
  revert s; induction n as [|n IH]; intros [|c s]; simpl; try done.
  by rewrite IH.
Qed.

Lemma length_drop n s : String.length (Py.drop n s) = String.length s - n.
Proof. revert s; induction n as [|n IH]; intros [|c s]; simpl; done. Qed.


Lemma drop_app_le n s t :
  n ≤ String.length s → Py.drop n (s +:+ t) = Py.drop n s +:+ t.
Proof.
  revert s; induction n as [|n IH]; intros [|c s]; simpl; try done; try lia.
  intros Hle. apply IH. lia.
Qed.

Lemma slice_from_drop i s : Py.slice_from i s = Py.drop (slice_start i s) s.
Proof. reflexivity. Qed.


(** [s[-k:]] has at most [k] characters. *)
Lemma slice_from_tail_length (k : Z) s :
  (0 < k)%Z → (Z.of_nat (String.length (Py.slice_from (- k) s)) ≤ k)%Z.
Proof.
  intros Hk. rewrite slice_from_drop, length_drop. unfold slice_start.
  destruct (Z.ltb_spec (- k) 0); lia.
Qed.

(** A tail of at least [|t|] characters of [s + t] still ends with [t]. *)
Lemma slice_from_tail_keeps (k : Z) s t :
  (Z.of_nat (String.length t) ≤ k)%Z → (0 < k)%Z →
  ends_with (Py.slice_from (- k) (s +:+ t)) t.
Proof.
  intros Ht Hk. rewrite slice_from_drop.
  assert (slice_start (- k) (s +:+ t) ≤ String.length s) as Hle.
  { unfold slice_start. rewrite str_length_app.
    destruct (Z.ltb_spec (- k) 0); lia. }
  rewrite drop_app_le by done. by eexists.
Qed.

Lemma slice_to_take (j : Z) s :
  (0 ≤ j)%Z → Py.slice_to j s = Py.take (Z.to_nat j) s.
Proof.
  intros Hj. unfold Py.slice_to.
  destruct (Z.ltb_spec j 0) as [|_]; [lia|].
  destruct (Z.min_spec j (Z.of_nat (String.length s))) as [[_ ->]|[Hlt ->]];
    [done|].
  rewrite Nat2Z.id.
  assert (∀ n m s, String.length s ≤ n → String.length s ≤ m →
                   Py.take n s = Py.take m s) as Hsame.
  { clear. induction n as [|n IH]; intros [|m] [|c t]; simpl;
      try done; try lia.
    intros ??. f_equal. apply IH; lia. }
  apply Hsame; lia.
Qed.

Lemma free_of_take c n s : free_of c s → free_of c (Py.take n s).
Proof.
  revert s; induction n as [|n IH]; intros [|c' s]; simpl; try done.
  intros [??]. split; auto.
Qed.

Lemma free_of_slice_to c (j : Z) s : free_of c s → free_of c (Py.slice_to j s).
Proof. apply free_of_take. Qed.

Lemma free_of_replace a b s : a ≠ b → free_of a (Py.replace_char a b s).
Proof.
  intros Hab. induction s as [|c s IH]; simpl; [done|]. split; [|done].
  destruct (Ascii.eqb_spec c a); congruence.
Qed.

Lemma free_of_replace_other c a b s :
  c ≠ b → free_of c s → free_of c (Py.replace_char a b s).
Proof.
  intros Hcb. induction s as [|c' s IH]; simpl; [done|].
  intros [??]. split; [|auto]. by destruct (Ascii.eqb c' a).
Qed.

(** The two [replace] calls of [dom_preview] do what
    [blanks_for_breaks] does in one pass. *)
Lemma replace_twice s :
  Py.replace_char (ascii_of_nat 9) " "
    (Py.replace_char (ascii_of_nat 10) " " s) = blanks_for_breaks s.
Proof.
  induction s as [|c s IH]; simpl; [done|]. rewrite IH. f_equal.
  destruct (Ascii.eqb_spec c (ascii_of_nat 10)) as [->|]; [done|].
  by destruct (Ascii.eqb_spec c (ascii_of_nat 9)).
Qed.

End Strings.

(** ** The validator *)

Section Validator.
Context {fmt : Repr}.

Lemma allowed_tool_cases (t : string) :
  t ∈ ALLOWED_TOOLS ↔ t = "go"%string ∨ t = "click"%string ∨ t = "type"%string.
Proof.
  unfold ALLOWED_TOOLS. rewrite !elem_of_union, !elem_of_singleton. tauto.
Qed.

Lemma not_in_allowed_false tool :
  not_in_allowed_tools tool = Return false ↔
  ∃ t, tool = JStr t ∧ t ∈ ALLOWED_TOOLS.
Proof.
  split.
  - destruct tool as [| | | |t| |]; simpl; try done.
    intros [= Hin]. exists t. split; [done|].
    by apply negb_false_iff, bool_decide_eq_true in Hin.
  - intros (t & -> & Hin). simpl. by rewrite bool_decide_eq_true_2.
Qed.

Lemma keys_differ_false a ks : keys_differ a ks = false ↔ dom a = ks.
Proof.
  unfold keys_differ. rewrite negb_false_iff. apply bool_decide_eq_true.
Qed.

Lemma required_keys_allowed t ks :
  required_keys t = Some ks → t ∈ ALLOWED_TOOLS.
Proof.
  unfold required_keys. rewrite allowed_tool_cases.
  destruct (String.eqb_spec t "go"); [auto|].
  destruct (String.eqb_spec t "click"); [auto|].
  destruct (String.eqb_spec t "type"); [auto|done].
Qed.

Lemma required_keys_nonempty t ks : required_keys t = Some ks → ks ≠ ∅.
Proof.
  unfold required_keys.
  repeat case_match; intros [= <-]; try done; set_solver.
Qed.

(** The key-set test of one tool, as [check_step] performs it. *)
Lemma key_test_pass (a : gmap string json) (ks : gset string) (msg : string) :
  (if keys_differ a ks then Return (Some msg) else Return None)
    = Return None ↔ Some ks = Some (dom a).
Proof.
  destruct (keys_differ a ks) eqn:Hk.
  - split; [done|]. intros [= Hd]. symmetry in Hd.
    apply keys_differ_false in Hd. congruence.
  - apply keys_differ_false in Hk. by rewrite Hk.
Qed.

(** [check_step] once the tool is a permitted name and [args] a record. *)
Lemma check_step_allowed i d t a :
  Py.dict_get d "tool" JNull = JStr t → t ∈ ALLOWED_TOOLS →
  Py.dict_get d "args" (JObj ∅) = JObj a →
  (check_step i (JObj d) = Return None ↔ required_keys t = Some (dom a)).
Proof.
  intros Ht Hin Ha. unfold check_step. rewrite Ht, Ha. simpl.
  rewrite bool_decide_eq_true_2 by done. simpl.
  apply allowed_tool_cases in Hin as [->|[->| ->]]; apply key_test_pass.
Qed.

Lemma dict_get_Some d k dflt v : d !! k = Some v → Py.dict_get d k dflt = v.
Proof. unfold Py.dict_get. by intros ->. Qed.

(** A step passes the loop body exactly when it conforms. *)
Lemma check_step_pass_iff i step :
  check_step i step = Return None ↔ conforms step.
Proof.
  split.
  - destruct step as [| | | | | |d]; try done.
    intros Hc.
    destruct (not_in_allowed_tools (Py.dict_get d "tool" JNull))
      as [e|bad] eqn:Hbad.
    { unfold check_step in Hc. by rewrite Hbad in Hc. }
    destruct bad.
    { unfold check_step in Hc. by rewrite Hbad in Hc. }
    apply not_in_allowed_false in Hbad as (t & Ht & Hin).
    destruct (Py.dict_get d "args" (JObj ∅)) as [| | | | | |a] eqn:Ha;
      try (unfold check_step in Hc; rewrite Ht, Ha in Hc; simpl in Hc;
           rewrite bool_decide_eq_true_2 in Hc by done; done).
    apply (check_step_allowed i d t a Ht Hin Ha) in Hc.
    exists d, t, a. split; [done|].
    unfold Py.dict_get in Ht, Ha.
    destruct (d !! "tool"%string) as [tool|] eqn:Hdt; simpl in Ht; [|done].
    subst tool. split; [done|].
    destruct (d !! "args"%string) as [args|] eqn:Hda; simpl in Ha.
    + by subst args.
    + injection Ha as <-. rewrite dom_empty_L in Hc.
      by apply required_keys_nonempty in Hc.
  - intros (d & t & a & -> & Ht & Ha & Hk).
    eapply check_step_allowed; eauto using dict_get_Some, required_keys_allowed.
Qed.

(** Only a tool that cannot be hashed makes the loop body raise. *)
Lemma check_step_returns i step :
  hashable_tool step → ∃ v, check_step i step = Return v.
Proof.
  destruct step as [| | | | | |d]; try (by eexists).
  unfold hashable_tool, check_step, Py.dict_get.
  destruct (d !! "tool"%string) as [[| | | |t| |]|]; simpl; try done; intros _;
    try (by eexists).
  destruct (bool_decide (t ∈ ALLOWED_TOOLS)); simpl; [|by eexists].
  destruct (default (JObj ∅) (d !! "args"%string)); try (by eexists).
  repeat case_match; by eexists.
Qed.

(** Every message of the loop body is qualified by the step. *)
Lemma check_step_msg i step msg :
  check_step i step = Return (Some msg) → ∃ rest, msg = "Step " +:+ rest.
Proof.
  assert (∀ a : string, Return (Some ("Step " +:+ a)) = Return (Some msg) →
                        ∃ rest, msg = "Step " +:+ rest) as Hshape.
  { intros a [= <-]. by exists a. }
  unfold check_step.
  destruct step as [| | | | | |d]; try apply Hshape.
  destruct (not_in_allowed_tools _) as [e|[]]; simpl; [done|apply Hshape|].
  destruct (Py.dict_get d "args" _); try apply Hshape.
  repeat (case_match; try done; try apply Hshape).
Qed.

Lemma validate_steps_true_iff i steps msg :
  validate_steps i steps = Return (true, msg) ↔
  Forall conforms steps ∧ msg = "ok"%string.
Proof.
  revert i. induction steps as [|step steps IH]; intros i; simpl.
  - split; [by intros [= <-]|by intros [_ ->]].
  - rewrite Forall_cons, <- check_step_pass_iff with (i := i).
    destruct (check_step i step) as [e|[m|]]; simpl.
    + split; [done|]. by intros [[? ?] ?].
    + split; [done|]. by intros [[? ?] ?].
    + rewrite IH. tauto.
Qed.

Lemma validate_steps_returns i steps :
  Forall hashable_tool steps → ∃ v, validate_steps i steps = Return v.
Proof.
  revert i. induction steps as [|step steps IH]; intros i; simpl.
  - by eexists.
  - intros [Hs Hrest]%Forall_cons.
    destruct (check_step_returns i step Hs) as [[m|] ->]; simpl; [by eexists|].
    by apply IH.
Qed.

Lemma validate_steps_msg i steps msg :
  validate_steps i steps = Return (false, msg) →
  ∃ rest, msg = "Step " +:+ rest.
Proof.
  revert i. induction steps as [|step steps IH]; intros i; simpl; [done|].
  destruct (check_step i step) as [e|[m|]] eqn:Hc; simpl; [done| |apply IH].
  intros [= <-]. by eapply check_step_msg.
Qed.

Lemma step_msg_not_length rest : ¬ length_reason ("Step " +:+ rest).
Proof. by intros [?|[?|?]]. Qed.

Lemma validate_plan_in_range steps :
  1 ≤ length steps ≤ 10 → validate_plan (JArr steps) = validate_steps 0 steps.
Proof.
  intros [Hlo Hhi]. unfold validate_plan.
  destruct (Nat.eqb_spec (length steps) 0); [lia|].
  destruct (Nat.ltb_spec 10 (length steps)); [lia|done].
Qed.

Lemma validate_plan_true_ok plan msg :
  validate_plan plan = Return (true, msg) → msg = "ok"%string.
Proof.
  destruct plan as [| | | | |steps|]; try done. unfold validate_plan.
  repeat case_match; try done. by intros [_ ?]%validate_steps_true_iff.
Qed.

(** On a list of one to ten step records, the verdict is "valid" exactly
    when every step conforms; when every tool can be hashed a verdict is
    returned, and it is "invalid" as soon as one step does not conform. *)
Lemma validate_plan_verdict steps :
  1 ≤ length steps ≤ 10 →
  (validate_plan (JArr steps) = Return (true, "ok"%string)
     ↔ Forall conforms steps)
  ∧ (Forall hashable_tool steps → ¬ Forall conforms steps →
     ∃ msg, validate_plan (JArr steps) = Return (false, msg)).
Proof.
  intros Hlen. rewrite validate_plan_in_range by done. split.
  - rewrite validate_steps_true_iff. tauto.
  - intros Hhash Hbad.
    destruct (validate_steps_returns 0 steps Hhash) as [[[] msg] Hv];
      [|by exists msg].
    apply validate_steps_true_iff in Hv as [? _]. done.
Qed.

Lemma validate_steps_unhashable i pre d tool post :
  Forall conforms pre → d !! "tool"%string = Some tool → unhashable tool →
  ∃ msg, validate_steps i (pre ++ JObj d :: post) = Raise (TypeError msg).
Proof.
  intros Hpre Htool Hun. revert i.
  induction Hpre as [|step pre Hstep _ IH]; intros i; simpl.
  - unfold check_step, Py.dict_get. rewrite Htool. simpl.
    destruct tool; try done; simpl; by eexists.
  - apply (check_step_pass_iff i) in Hstep. rewrite Hstep. simpl. apply IH.
Qed.

(** C2. In a plan of one to ten step records, let the first step that does
    not conform carry as its tool a list or a dict, values outside the set
    of tool names: the membership test [tool not in ALLOWED_TOOLS] raises
    [TypeError], and [validate_plan] gives no verdict, neither invalid nor
    valid. *)
Theorem validate_plan_unhashable_tool_raises pre d tool post :
  1 ≤ length (pre ++ JObj d :: post) ≤ 10 →
  Forall conforms pre → d !! "tool"%string = Some tool → unhashable tool →
  (∃ msg, validate_plan (JArr (pre ++ JObj d :: post)) = Raise (TypeError msg))
  ∧ ¬ conforms (JObj d).
Proof.
  intros Hlen Hpre Htool Hun. split.
  - rewrite validate_plan_in_range by done.
    by apply (validate_steps_unhashable 0 pre d tool post).
  - intros (d' & t & a & [= <-] & Ht & _). rewrite Htool in Ht.
    injection Ht as ->. done.
Qed.

(** C6. [validate_plan] answers "invalid" with the reason of the failed
    size check when its argument is not a list, is an empty list, or is
    a list of more than ten items, whatever the items are; a list of one
    to ten items goes on to the per-step loop and is never answered with
    one of these three reasons. *)
Theorem validate_plan_length_rules (v : json) :
  ((∀ l, v ≠ JArr l) →
     validate_plan v = Return (false, "Plan must be a list."%string))
  ∧ (∀ l, v = JArr l → length l = 0 →
       validate_plan v = Return (false, "Plan is empty."%string))
  ∧ (∀ l, v = JArr l → 10 < length l →
       validate_plan v = Return (false, "Plan too long (max 10 steps)."%string))
  ∧ (∀ l, v = JArr l → 1 ≤ length l ≤ 10 →
       validate_plan v = validate_steps 0 l
       ∧ ∀ msg, validate_plan v = Return (false, msg) → ¬ length_reason msg).
Proof.
  split; [|split; [|split]].
  - intros Hv. destruct v; try done. by destruct (Hv l).
  - intros l -> Hl. unfold validate_plan. by rewrite Hl.
  - intros l -> Hl. unfold validate_plan.
    destruct (Nat.eqb_spec (length l) 0); [lia|].
    destruct (Nat.ltb_spec 10 (length l)); [done|lia].
  - intros l -> Hl. rewrite validate_plan_in_range by done.
    split; [done|].
    intros msg [rest ->]%validate_steps_msg. apply step_msg_not_length.
Qed.

End Validator.

(** ** The planner *)

Section Planner.
Context {env : Env} {codec : Codec} {fmt : Repr}.

Lemma demo_plan_steps note_text :
  deterministic_demo_plan note_text =
    JArr [go_step DEFAULT_PRODUCT_URL; click_step "Add to cart";
          click_step "View cart";
          type_step "Order special instructions" note_text].
Proof. reflexivity. Qed.

(** The demo plan passes the validator, whatever the note and the URL. *)
Lemma demo_plan_valid note_text :
  validate_plan (deterministic_demo_plan note_text) = Return (true, "ok"%string).
Proof. vm_compute. reflexivity. Qed.

(** Whenever [groq_plan] returns, what it returns passes the validator. *)
Lemma groq_plan_returns_valid user_goal note_text plan :
  groq_plan user_goal note_text = Return plan →
  validate_plan plan = Return (true, "ok"%string).
Proof.
  unfold groq_plan. destruct groq_client as [client|].
  - destruct (planner_call client _ _) as [e|content]; simpl; [done|].
    intros [= <-].
    destruct (json_loads content) as [e|plan]; simpl;
      [exact (demo_plan_valid note_text)|].
    destruct (validate_plan plan) as [e|[[] msg]] eqn:Hv; simpl;
      [exact (demo_plan_valid note_text)| |exact (demo_plan_valid note_text)].
    by rewrite Hv, (validate_plan_true_ok _ _ Hv).
  - intros [= <-]. exact (demo_plan_valid note_text).
Qed.

(** Once the completion call has returned, every failure behind it (text
    that is not JSON, a structure the validator rejects, a structure the
    validator chokes on) ends in the demo plan. *)
Lemma groq_plan_falls_back client user_goal note_text content :
  groq_client = Some client →
  planner_call client (planner_system note_text) user_goal = Return content →
  (∀ plan, json_loads content = Return plan →
           validate_plan plan ≠ Return (true, "ok"%string)) →
  groq_plan user_goal note_text = Return (deterministic_demo_plan note_text).
Proof.
  intros Hc Hcall Hbad. unfold groq_plan. rewrite Hc, Hcall. simpl. f_equal.
  destruct (json_loads content) as [e|plan]; simpl; [done|].
  destruct (validate_plan plan) as [e|[[] msg]] eqn:Hv; simpl; try done.
  destruct (Hbad plan eq_refl). by rewrite Hv, (validate_plan_true_ok _ _ Hv).
Qed.

(** C1. With a completion service configured, an exception of the
    completion call (or of [.strip()] on its content) is not caught:
    [groq_plan] raises it instead of returning the demo plan. *)
Theorem groq_plan_completion_failure_escapes client user_goal note_text e :
  groq_client = Some client →
  planner_call client (planner_system note_text) user_goal = Raise e →
  groq_plan user_goal note_text = Raise e.
Proof. intros Hc Hcall. unfold groq_plan. by rewrite Hc, Hcall. Qed.

(** C7. Without a completion service, [groq_plan] returns, for every goal,
    the four steps go(default URL), click "Add to cart", click "View cart",
    type(label "Order special instructions", value the note), and this plan
    passes the validator. *)
Theorem groq_plan_without_service user_goal note_text :
  groq_client = None →
  groq_plan user_goal note_text = Return (deterministic_demo_plan note_text)
  ∧ deterministic_demo_plan note_text =
      JArr [go_step DEFAULT_PRODUCT_URL; click_step "Add to cart";
            click_step "View cart";
            type_step "Order special instructions" note_text]
  ∧ validate_plan (deterministic_demo_plan note_text) = Return (true, "ok"%string).
Proof.
  intros Hnone. unfold groq_plan. rewrite Hnone.
  split; [done|]. split; [apply demo_plan_steps | apply demo_plan_valid].
Qed.

End Planner.

(** ** The DOM preview *)

Section Preview.
Context {env : Env}.

(** Whatever the limit, the preview holds no newline and no tab. *)
Lemma dom_preview_no_breaks html :
  free_of (ascii_of_nat 10) (dom_preview html)
  ∧ free_of (ascii_of_nat 9) (dom_preview html).
Proof.
  unfold dom_preview. split; apply free_of_slice_to.
  - apply free_of_replace_other; [done|]. by apply free_of_replace.
  - by apply free_of_replace.
Qed.

(** C8, as amended. When the configured limit is not negative, the preview
    is the markup with each newline and tab replaced by one space, cut to
    the first [DOM_PREVIEW_LIMIT] characters; it is no longer than the limit
    and holds no newline and no tab. *)
Theorem dom_preview_within_limit html :
  (0 ≤ DOM_PREVIEW_LIMIT)%Z → dom_preview_claim html.
Proof.
  intros Hlim. unfold dom_preview_claim.
  assert (dom_preview html
          = Py.take (Z.to_nat DOM_PREVIEW_LIMIT) (blanks_for_breaks html)) as Heq.
  { unfold dom_preview. by rewrite replace_twice, slice_to_take. }
  split; [done|]. split; [|apply dom_preview_no_breaks].
  rewrite Heq, length_take. lia.
Qed.

End Preview.

(** C8, as stated, fails for a negative limit: with [DOM_PREVIEW_LIMIT=-1]
    the slice drops the last character, and the preview of "abc" is "ab",
    two characters against a limit of -1. *)
Lemma dom_preview_negative_limit :
  ¬ @dom_preview_claim (Demo.env None (-1)) "abc".
Proof. intros (_ & Hlen & _). vm_compute in Hlen. by apply Hlen. Qed.

(** ** Stateful code *)

Section Monad.
Context {S : Type}.

Lemma St_bind_Return {A B} (m : St S A) (k : A → St S B) s a s' :
  m s = (Return a, s') → (m ≫= k) s = k a s'.
Proof. unfold mbind, St_bind. by intros ->. Qed.

Lemma St_bind_Raise {A B} (m : St S A) (k : A → St S B) s e s' :
  m s = (Raise e, s') → (m ≫= k) s = (Raise e, s').
Proof. unfold mbind, St_bind. by intros ->. Qed.

Lemma St_bind_inv {A B} (m : St S A) (k : A → St S B) s b s2 :
  (m ≫= k) s = (Return b, s2) →
  ∃ a s1, m s = (Return a, s1) ∧ k a s1 = (Return b, s2).
Proof.
  unfold mbind, St_bind. destruct (m s) as [[e|a] s1]; [done|]. eauto.
Qed.

Lemma St_bind_cases {A B} (m : St S A) (k : A → St S B) s r s' :
  (m ≫= k) s = (r, s') →
  (∃ e, r = Raise e ∧ m s = (Raise e, s'))
  ∨ ∃ a s1, m s = (Return a, s1) ∧ k a s1 = (r, s').
Proof.
  unfold mbind, St_bind. destruct (m s) as [[e|a] s1].
  - intros [= <- <-]. left. by exists e.
  - intros Hk. right. by exists a, s1.
Qed.


Lemma with_text_ret {A} (a : A) : with_text (mret a : St S A).
Proof. by intros s e s'. Qed.

Lemma lift_inv {A} (r : result A) (s : S) a s' :
  lift r s = (Return a, s') → r = Return a ∧ s' = s.
Proof. unfold lift. by intros [= -> ->]. Qed.

End Monad.

(** ** The runner *)

Section RunnerFacts.
Context {env : Env} {codec : Codec} {fmt : Repr} {engine : Playwright}
        {disk : Disk}.

Lemma run_step_inv idx step sb so sb' :
  run_step idx step sb = (Return so, sb') →
  records idx step so
  ∧ (so_ok so = false → ∃ e, so_error so = Some (Py.str_exn e))
  ∧ (so_ok so = true → so_error so = None ∧ is_Some (so_url so)
                       ∧ is_Some (so_title so)).
Proof.
  unfold run_step. intros Hrun.
  apply St_bind_inv in Hrun as (tool & s1 & [Ht ->]%lift_inv & Hrun).
  apply St_bind_inv in Hrun as (args & s2 & [Ha ->]%lift_inv & Hrun).
  apply St_bind_inv in Hrun as (r & s3 & Hr & Hrun).
  destruct r as [e|url].
  { injection Hrun as <- <-. unfold records.
    repeat split; simpl; try done; eauto. }
  apply St_bind_inv in Hrun as ([e|title] & s4 & Hr2 & Hrun);
    injection Hrun as <- <-; unfold records;
    repeat split; simpl; try done; eauto.
Qed.

(** An exception of the action of a step (a target that is not found, a
    timeout, a missing argument, an unknown tool) is what makes the step a
    failed one. *)
Lemma run_step_action_raises idx step tool args sb e sb' :
  Py.getitem step "tool" = Return tool → Py.getitem step "args" = Return args →
  step_action tool args sb = (Raise e, sb') →
  run_step idx step sb =
    (Return {| so_idx := idx; so_tool := tool; so_args := args; so_ok := false;
               so_error := Some (Py.str_exn e); so_url := None;
               so_title := None |}, sb').
Proof.
  intros Ht Ha Hact. unfold run_step, mbind, St_bind, lift, try_catch.
  by rewrite Ht, Ha, Hact.
Qed.



Lemma run_steps_cons_inv idx step rest out sb out' sb' :
  run_steps idx (step :: rest) out sb = (Return out', sb') →
  ∃ so sb1, run_step idx step sb = (Return so, sb1)
    ∧ if so_ok so then run_steps (S idx) rest (record_step out so) sb1
                       = (Return out', sb')
      else out' = record_step out so ∧ sb' = sb1.
Proof.
  simpl. intros (so & sb1 & Hs & Hrest)%St_bind_inv.
  exists so, sb1. split; [done|].
  destruct (so_ok so); [done|]. by injection Hrest as <- <-.
Qed.

(** The loop only ever clears [out["ok"]]. *)
Lemma run_steps_ok_mono idx plan out sb out' sb' :
  run_steps idx plan out sb = (Return out', sb') →
  out_ok out' = true → out_ok out = true.
Proof.
  revert idx out sb. induction plan as [|step rest IH]; intros idx out sb.
  - simpl. by intros [= <- <-].
  - intros (so & sb1 & Hs & Hrest)%run_steps_cons_inv Hok.
    destruct (so_ok so) eqn:Hso.
    + apply IH in Hrest; [|done]. simpl in Hrest. by rewrite Hso in Hrest.
    + destruct Hrest as [-> ->]. simpl in Hok. by rewrite Hso in Hok.
Qed.


(** The entries the loop appends follow the plan, in order and from the
    front, and the loop touches nothing else of [out]. *)
Lemma run_steps_order idx plan out sb out' sb' :
  run_steps idx plan out sb = (Return out', sb') →
  ∃ sos, out_steps out' = out_steps out ++ sos ∧ in_plan_order idx plan sos
         ∧ final_screenshot out' = final_screenshot out.
Proof.
  revert idx out sb. induction plan as [|step rest IH]; intros idx out sb.
  - simpl. intros [= <- <-]. exists []. rewrite app_nil_r.
    split; [done|]. split; [|done]. by intros i so.
  - intros (so & sb1 & Hs & Hrest)%run_steps_cons_inv.
    apply run_step_inv in Hs as (Hrec & _).
    assert (in_plan_order idx (step :: rest) [so]) as Hone.
    { intros [|i] so'; [|done]. intros [= <-]. exists step.
      by rewrite Nat.add_0_r. }
    destruct (so_ok so).
    + destruct (IH _ _ _ Hrest) as (sos & -> & Hord & ->).
      exists (so :: sos). simpl. rewrite <- app_assoc. split; [done|].
      split; [|done]. intros [|i] so'.
      * intros [= <-]. by apply (Hone 0).
      * simpl. intros Hso'. destruct (Hord _ _ Hso') as (st & ? & ?).
        exists st. by rewrite Nat.add_succ_r.
    + destruct Hrest as [-> ->]. by exists [so].
Qed.

Lemma await_run {A} (op : St Browser A) sb r b :
  op (browser sb) = (r, b) →
  await op sb = (r, {| browser := b; files := files sb |}).
Proof. unfold await. by intros ->. Qed.

Lemma await_files {A} (op : St Browser A) sb r sb' :
  await op sb = (r, sb') → files sb' = files sb.
Proof. unfold await. destruct (op (browser sb)). by intros [= _ <-]. Qed.

(** What never writes a file: everything up to the end of the step loop. *)
Lemma keeps_files_bind {A B} (m : St Sandbox A) (k : A → St Sandbox B) :
  keeps_files m → (∀ a, keeps_files (k a)) → keeps_files (m ≫= k).
Proof.
  intros Hm Hk s r s'. unfold mbind, St_bind.
  destruct (m s) as [[e|a] s1] eqn:Hms.
  - intros [= <- <-]. by eapply Hm.
  - intros Hka. rewrite (Hk a _ _ _ Hka). by eapply Hm.
Qed.

Lemma keeps_files_await {A} (op : St Browser A) : keeps_files (await op).
Proof. intros s r s'. apply await_files. Qed.

Lemma keeps_files_lift {A} (r : result A) : keeps_files (lift r).
Proof. intros s r' s'. unfold lift. by intros [= _ <-]. Qed.

Lemma keeps_files_ret {A} (a : A) : keeps_files (mret a).
Proof. intros s r' s'. unfold mret, St_ret. by intros [= _ <-]. Qed.

Lemma keeps_files_try {A} (m : St Sandbox A) :
  keeps_files m → keeps_files (try_catch m).
Proof.
  intros Hm s r s'. unfold try_catch.
  destruct (m s) as [[e|a] s1] eqn:Hms; intros [= _ <-]; by eapply Hm.
Qed.

Lemma keeps_files_get_url : keeps_files get_url.
Proof. intros s r s'. unfold get_url. by intros [= _ <-]. Qed.

Lemma keeps_files_read path : keeps_files (read_text path).
Proof.
  intros s r s'. unfold read_text. by destruct (files s !! path); intros [= _ <-].
Qed.

Lemma keeps_files_click text : keeps_files (click_by_text text).
Proof.
  unfold click_by_text.
  repeat (apply keeps_files_bind; [apply keeps_files_await|intros ?]).
  apply keeps_files_await.
Qed.

Lemma keeps_files_type label value : keeps_files (type_by_label label value).
Proof.
  unfold type_by_label.
  repeat (apply keeps_files_bind; [apply keeps_files_await|intros ?]).
  apply keeps_files_await.
Qed.

Lemma keeps_files_action tool args : keeps_files (step_action tool args).
Proof.
  unfold step_action. repeat case_match;
    repeat (apply keeps_files_bind; [apply keeps_files_lift|intros ?]);
    auto using keeps_files_await, keeps_files_click, keeps_files_type,
               keeps_files_lift.
Qed.

Lemma keeps_files_step idx step : keeps_files (run_step idx step).
Proof.
  unfold run_step.
  repeat (apply keeps_files_bind; [apply keeps_files_lift|intros ?]).
  apply keeps_files_bind.
  { apply keeps_files_try, keeps_files_bind;
      [apply keeps_files_action|intros; apply keeps_files_get_url]. }
  intros [e|url]; [apply keeps_files_ret|].
  apply keeps_files_bind; [apply keeps_files_try, keeps_files_await|].
  intros [e|title]; apply keeps_files_ret.
Qed.

Lemma keeps_files_steps idx plan out : keeps_files (run_steps idx plan out).
Proof.
  revert idx out. induction plan as [|step rest IH]; intros idx out; simpl.
  - apply keeps_files_ret.
  - apply keeps_files_bind; [apply keeps_files_step|].
    intros so. destruct (so_ok so); [apply IH|apply keeps_files_ret].
Qed.

(** Writing a file: what a completed write has done, and what a failed one
    can have done. *)
Lemma write_file_run path content sb :
  write_fault (files sb) path content = None →
  write_file path content sb =
    (Return (), {| browser := browser sb; files := <[path := content]> (files sb) |}).
Proof. unfold write_file. by intros ->. Qed.

Lemma write_file_inv path content sb u sb' :
  write_file path content sb = (Return u, sb') →
  write_fault (files sb) path content = None
  ∧ sb' = {| browser := browser sb; files := <[path := content]> (files sb) |}.
Proof.
  unfold write_file.
  destruct (write_fault (files sb) path content) as [[e|e n]|]; [done..|].
  by intros [= _ <-].
Qed.

Lemma write_file_raise_inv path content sb e sb' :
  write_file path content sb = (Raise e, sb') →
  sb' = sb
  ∨ ∃ n, write_fault (files sb) path content = Some (WriteFails e n)
         ∧ files sb' = <[path := Py.take n content]> (files sb).
Proof.
  unfold write_file.
  destruct (write_fault (files sb) path content) as [[e'|e' n]|]; [| |done].
  - intros [= _ <-]. by left.
  - intros [= <- <-]. right. by exists n.
Qed.

(** A write leaves every other file alone, whatever its outcome. *)
Lemma write_file_other path content sb r sb' other :
  write_file path content sb = (r, sb') → other ≠ path →
  files sb' !! other = files sb !! other.
Proof.
  unfold write_file.
  destruct (write_fault (files sb) path content) as [[e|e n]|];
    intros [= _ <-] Hne; simpl; by rewrite ?lookup_insert_ne.
Qed.


(** Whenever the capture completes, it has filled the three fields, kept
    the rest of [out], and written the screenshot file. *)
Lemma final_capture_inv out sb out' sb' :
  final_capture out sb = (Return out', sb') →
  out_ok out' = out_ok out ∧ out_steps out' = out_steps out
  ∧ is_Some (final_url out') ∧ is_Some (final_title out')
  ∧ is_Some (final_dom_preview out')
  ∧ final_screenshot out' = final_screenshot out
  ∧ is_Some (files sb' !! FINAL_SCREENSHOT_PATH).
Proof.
  unfold final_capture, mbind, St_bind, get_url, await, write_file. simpl.
  destruct (page_title (browser sb)) as [[e|title] b1]; [done|]. simpl.
  destruct (page_screenshot b1) as [[e|png] b2]; [done|]. simpl.
  destruct (write_fault (files sb) FINAL_SCREENSHOT_PATH png) as [[e|e n]|];
    [done..|]. simpl.
  destruct (page_content b2) as [[e|html] b3]; [done|].
  intros [= <- <-]. simpl. rewrite lookup_insert_eq. eauto 10.
Qed.


(** Whenever [main] completes, it has read the request, run [run_plan] on
    the items of its plan, and written the result document made from the
    [out] that [run_plan] returned. *)
Lemma main_inv sb sb' :
  main sb = (Return (), sb') →
  ∃ text req plan steps s_open out s_run,
    files sb !! REQ_PATH = Some text ∧ json_loads text = Return req
    ∧ Py.getitem req "plan" = Return plan ∧ iterate plan = Return steps
    ∧ run_plan steps s_open = (Return out, s_run)
    ∧ files sb' = <[OUT_PATH := json_dumps (out_json out)]> (files s_run).
Proof.
  unfold main. intros Hm.
  apply St_bind_inv in Hm as (text & s1 & Hread & Hm).
  apply St_bind_inv in Hm as (req & s2 & [Hreq ->]%lift_inv & Hm).
  apply St_bind_inv in Hm as (plan & s3 & [Hplan ->]%lift_inv & Hm).
  apply St_bind_inv in Hm as (h & s4 & _ & Hm).
  apply St_bind_inv in Hm as ([] & s5 & _ & Hm).
  apply St_bind_inv in Hm as ([] & s6 & _ & Hm).
  apply St_bind_inv in Hm as ([] & s7 & _ & Hm).
  apply St_bind_inv in Hm as (steps & s8 & [Hsteps ->]%lift_inv & Hm).
  apply St_bind_inv in Hm as (out & s9 & Hrun & Hm).
  apply St_bind_inv in Hm as ([] & s11 & Hc1 & Hm).
  apply St_bind_inv in Hm as ([] & s12 & Hc2 & Hm).
  apply write_file_inv in Hm as [_ ->].
  apply await_files in Hc1, Hc2.
  exists text, req, plan, steps, s7, out, s9. simpl. rewrite Hc2, Hc1.
  repeat split; try done.
  unfold read_text in Hread. destruct (files sb !! REQ_PATH); [|done].
  by injection Hread as -> _.
Qed.

(** Whenever [run_plan] completes, the final fields of its [out] are
    filled, [final_screenshot] with the text it had from the start, and
    the screenshot file is in the work area. *)
Lemma run_plan_inv steps sb out sb' :
  run_plan steps sb = (Return out, sb') →
  final_screenshot out = "artifacts/final.png"%string
  ∧ is_Some (final_url out) ∧ is_Some (final_title out)
  ∧ is_Some (final_dom_preview out)
  ∧ is_Some (files sb' !! FINAL_SCREENSHOT_PATH).
Proof.
  unfold run_plan. intros (out0 & s0 & Hloop & Hcap)%St_bind_inv.
  apply final_capture_inv in Hcap as (_ & _ & ? & ? & ? & Hshot & Hfile).
  apply run_steps_order in Hloop as (_ & _ & _ & Hshot').
  by rewrite Hshot, Hshot'.
Qed.


(** *** The texts of the exceptions of a step *)









End RunnerFacts.


(** ** The orchestrator *)

Section OrchestratorFacts.
Context {env : Env} {codec : Codec} {os : Executor}.

(** The two artifact names of a run are different paths. *)
Lemma artifact_paths_differ run_id :
  Py.path_join ARTIFACTS_DIR (run_id +:+ "_final.png")
  ≠ Py.path_join ARTIFACTS_DIR (run_id +:+ "_output.json").
Proof.
  destruct (path_join_prefix ARTIFACTS_DIR) as [p Hp]. rewrite !Hp. intros Heq.
  by do 2 apply str_app_inv_head in Heq.
Qed.

(** Preparing the work area and running the container leaves the artifact
    store and the run table alone. *)
Lemma launch_keeps run_id plan headless h r h1 :
  launch run_id plan headless h = (r, h1) →
  artifacts h1 = artifacts h ∧ runs h1 = runs h.
Proof.
  unfold launch, mbind, St_bind, work_write, docker. simpl.
  destruct (subprocess_exec _ _) as [r' d]. by intros [= _ <-].
Qed.

(** [run_in_docker] is [launch] followed by the reading of its outcome. *)
Lemma run_in_docker_launch run_id plan headless h :
  run_in_docker run_id plan headless h =
    match launch run_id plan headless h with
    | (Raise e, h1) => (Raise e, h1)
    | (Return (returncode, stdout, stderr), h1) =>
        if negb (returncode =? 0)%Z then
          (Return (ExecFailed returncode (Py.slice_from (-3000) stdout)
                     (Py.slice_from (-3000) stderr)), h1)
        else
          match work_dir run_id h1 !! "result.json"%string,
                work_dir run_id h1 !! "final.png"%string with
          | Some result_text, Some final_bytes =>
              let final_out :=
                Py.path_join ARTIFACTS_DIR (run_id +:+ "_final.png") in
              let json_out :=
                Py.path_join ARTIFACTS_DIR (run_id +:+ "_output.json") in
              let h2 :=
                {| work := work h1;
                   artifacts := <[json_out := result_text]>
                                  (<[final_out := final_bytes]> (artifacts h1));
                   runs := runs h1 |} in
              match json_loads result_text with
              | Raise e => (Raise e, h2)
              | Return result =>
                  (Return (ExecOk run_id result final_out json_out
                             (Py.slice_from (-2000) stdout)
                             (Py.slice_from (-2000) stderr)), h2)
              end
          | _, _ =>
              (Return (ExecFailed returncode (Py.slice_from (-2000) stdout)
                         (Py.slice_from (-3000)
                            (stderr +:+ Py.nl
                               +:+ "Missing result.json or final.png"))), h1)
          end
    end.
Proof.
  unfold run_in_docker, launch, mbind, St_bind, work_write, docker. simpl.
  destruct (subprocess_exec _ _) as [[e|[[rc out] err]] d]; [done|].
  destruct (negb (rc =? 0)%Z); [done|].
  match goal with
  | |- context [work_dir run_id ?x !! "result.json"%string] => set (h1 := x)
  end.
  destruct (work_dir run_id h1 !! "result.json"%string) as [text|]; [|done].
  destruct (work_dir run_id h1 !! "final.png"%string) as [png|]; [|done].
  unfold artifact_read. simpl. rewrite lookup_insert_eq.
  by destruct (json_loads text).
Qed.


(** C5. When the container run exits with code zero and the work area
    lacks [result.json] or [final.png], [run_in_docker] returns a failure
    record that carries the code 0 and whose [stderr] is the last 3000
    characters at most of the captured stream followed by a line break and
    the note "Missing result.json or final.png"; the cut never reaches the
    note, so the diagnostics end with it; no record returned for a
    non-zero exit equals this one; nothing was written to the artifact
    store. *)
Theorem run_in_docker_missing_artifact run_id plan headless h
    stdout stderr h1 :
  launch run_id plan headless h = (Return (0%Z, stdout, stderr), h1) →
  work_dir run_id h1 !! "result.json"%string = None
  ∨ work_dir run_id h1 !! "final.png"%string = None →
  let note := String (ascii_of_nat 10) "Missing result.json or final.png" in
  let diagnostics := Py.slice_from (-3000) (stderr +:+ note) in
  let outcome := ExecFailed 0 (Py.slice_from (-2000) stdout) diagnostics in
  run_in_docker run_id plan headless h = (Return outcome, h1)
  ∧ ends_with diagnostics note
  ∧ (String.length diagnostics ≤ 3000)
  ∧ (∀ returncode out err,
       returncode ≠ 0%Z → ExecFailed returncode out err ≠ outcome)
  ∧ artifacts h1 = artifacts h.
Proof.
  intros Hl Hmiss note diagnostics outcome. rewrite run_in_docker_launch, Hl.
  simpl. split; [|split; [|split; [|split]]].
  - by destruct Hmiss as [-> | ->]; [|destruct (_ !! "result.json"%string)].
  - subst diagnostics. apply (slice_from_tail_keeps 3000); [|done].
    vm_compute. by intros [=].
  - assert (Z.of_nat (String.length diagnostics) ≤ 3000)%Z
      by (by apply (slice_from_tail_length 3000)).
    lia.
  - intros rc out err Hrc [= ? _ _]. done.
  - by apply launch_keeps in Hl as [? _].
Qed.

(** A successful [run_in_docker] names the durable screenshot after the
    run, and hands on the result document as it was parsed. *)
Lemma run_in_docker_success_inv run_id plan headless h
    rid result shot doc lo le h' :
  run_in_docker run_id plan headless h
    = (Return (ExecOk rid result shot doc lo le), h') →
  shot = Py.path_join ARTIFACTS_DIR (run_id +:+ "_final.png")
  ∧ ∃ text png,
      work_dir run_id h' !! "result.json"%string = Some text
      ∧ json_loads text = Return result
      ∧ work_dir run_id h' !! "final.png"%string = Some png
      ∧ artifacts h' !! shot = Some png.
Proof.
  rewrite run_in_docker_launch.
  destruct (launch run_id plan headless h) as [[e|[[rc out] err]] h1]; [done|].
  destruct (negb (rc =? 0)%Z); [done|].
  destruct (work_dir run_id h1 !! "result.json"%string) as [text|] eqn:Hr; [|done].
  destruct (work_dir run_id h1 !! "final.png"%string) as [png|] eqn:Hf; [|done].
  simpl. destruct (json_loads text) as [e|res] eqn:Hj; [done|].
  intros [= <- <- <- <- <- <- <-]. split; [done|].
  exists text, png. unfold work_dir in *. simpl.
  rewrite lookup_insert_ne by (symmetry; apply artifact_paths_differ).
  by rewrite lookup_insert_eq.
Qed.
End OrchestratorFacts.


(** ** The run route *)

Section RoutesFacts.
Context {env : Env} {codec : Codec} {fmt : Repr} {os : Executor}.

(** The request fields of [select_plan], once read. *)
Lemma select_plan_fields body goal note plan :
  let data := Py.or_else body (JObj ∅) in
  text_field data "goal" = Return goal →
  text_field data "note_text" = Return note →
  Py.get data "plan" JNull = Return plan →
  select_plan body =
    (let note_text := str_or note DEFAULT_NOTE in
     let goal := str_or goal DEFAULT_GOAL in
     plan ← match plan with
            | JArr _ => Return plan
            | _ => groq_plan goal note_text
            end;
     '(ok, msg) ← validate_plan plan;
     Return (goal, note_text,
             if ok : bool then plan else deterministic_demo_plan note_text)).
Proof. intros data Hg Hn Hp. unfold select_plan. fold data. by rewrite Hg, Hn, Hp. Qed.

(** A request without a list as its plan gets the planner's plan,
    provided the planner returns one. *)
Lemma select_plan_absent_plan body goal note plan planned :
  let data := Py.or_else body (JObj ∅) in
  text_field data "goal" = Return goal →
  text_field data "note_text" = Return note →
  Py.get data "plan" JNull = Return plan →
  (∀ l, plan ≠ JArr l) →
  groq_plan (str_or goal DEFAULT_GOAL) (str_or note DEFAULT_NOTE) = Return planned →
  select_plan body =
    Return (str_or goal DEFAULT_GOAL, str_or note DEFAULT_NOTE, planned).
Proof.
  intros data Hg Hn Hp Hnl Hplanned.
  rewrite (select_plan_fields body goal note plan Hg Hn Hp). simpl.
  assert (match plan with JArr _ => Return plan
          | _ => groq_plan (str_or goal DEFAULT_GOAL) (str_or note DEFAULT_NOTE)
          end = Return planned) as ->.
  { destruct plan; try done. by destruct (Hnl l). }
  simpl. by rewrite (groq_plan_returns_valid _ _ _ Hplanned).
Qed.

(** A request whose list the validator rejects gets the demo plan. *)
Lemma select_plan_rejected_plan body goal note steps msg :
  let data := Py.or_else body (JObj ∅) in
  text_field data "goal" = Return goal →
  text_field data "note_text" = Return note →
  Py.get data "plan" JNull = Return (JArr steps) →
  validate_plan (JArr steps) = Return (false, msg) →
  select_plan body =
    Return (str_or goal DEFAULT_GOAL, str_or note DEFAULT_NOTE,
            deterministic_demo_plan (str_or note DEFAULT_NOTE)).
Proof.
  intros data Hg Hn Hp Hv.
  rewrite (select_plan_fields body goal note _ Hg Hn Hp).
  cbv zeta. unfold mbind, result_bind, rbind. by rewrite Hv.
Qed.

(** A request without a list as its plan, when the planner raises. *)
Lemma select_plan_planner_raises body goal note plan e :
  let data := Py.or_else body (JObj ∅) in
  text_field data "goal" = Return goal →
  text_field data "note_text" = Return note →
  Py.get data "plan" JNull = Return plan →
  (∀ l, plan ≠ JArr l) →
  groq_plan (str_or goal DEFAULT_GOAL) (str_or note DEFAULT_NOTE) = Raise e →
  select_plan body = Raise e.
Proof.
  intros data Hg Hn Hp Hnl Hraise.
  rewrite (select_plan_fields body goal note plan Hg Hn Hp). simpl.
  assert (match plan with JArr _ => Return plan
          | _ => groq_plan (str_or goal DEFAULT_GOAL) (str_or note DEFAULT_NOTE)
          end = Raise e) as ->; [|done].
  destruct plan; try done. by destruct (Hnl l).
Qed.

(** With a plan selected and an unused run id, [api_run] stores the row
    and goes on to run that plan in the container. *)
Lemma api_run_proceeds body run_id now h goal note_text plan :
  select_plan body = Return (goal, note_text, plan) →
  runs h !! run_id = None →
  api_run body run_id now h =
    (run_in_docker run_id plan true ≫= finish_run run_id plan)
      {| work := work h; artifacts := artifacts h;
         runs := <[run_id := {| created_at := now; user_goal := goal;
                                plan_json := json_dumps plan;
                                result_json := None |}]> (runs h) |}.
Proof.
  intros Hsel Hfresh. unfold api_run.
  rewrite (St_bind_Return _ _ h (goal, note_text, plan) h)
    by (unfold lift; by rewrite Hsel).
  simpl. unfold mbind at 1, St_bind at 1, db_insert at 1. by rewrite Hfresh.
Qed.

(** When no plan can be selected, [api_run] raises before anything is
    stored or run. *)
Lemma api_run_refuses body run_id now h e :
  select_plan body = Raise e → api_run body run_id now h = (Raise e, h).
Proof.
  intros Hsel. unfold api_run. apply St_bind_Raise. unfold lift. by rewrite Hsel.
Qed.

(** C9. A run request whose text fields read well and whose plan field is
    not a list, while the planner raises (its completion call fails): the
    exception leaves [api_run]; no plan replaces the missing one, no row is
    stored and no container is run, the host is as it was. *)
Theorem api_run_planner_failure_escapes body goal note plan e run_id now h :
  let data := Py.or_else body (JObj ∅) in
  text_field data "goal" = Return goal →
  text_field data "note_text" = Return note →
  Py.get data "plan" JNull = Return plan →
  (∀ l, plan ≠ JArr l) →
  groq_plan (str_or goal DEFAULT_GOAL) (str_or note DEFAULT_NOTE) = Raise e →
  api_run body run_id now h = (Raise e, h).
Proof.
  intros data Hg Hn Hp Hnl Hraise. apply api_run_refuses.
  by apply (select_plan_planner_raises body goal note plan).
Qed.
End RoutesFacts.

(** ** The screenshot reference inside the result document *)

Section Screenshot.
Context {env : Env} {codec : Codec} {fmt : Repr} {engine : Playwright}
        {disk : Disk} {os : Executor}.

Lemma drop_app_length (s t : string) : Py.drop (String.length s) (s +:+ t) = t.
Proof. induction s as [|c s IH]; [by destruct t|]. by rewrite str_app_cons. Qed.

(** No run-id-qualified name in any artifact directory reads
    [artifacts/final.png]. *)
Lemma durable_name_differs dir run_id :
  Py.path_join dir (run_id +:+ "_final.png") ≠ "artifacts/final.png"%string.
Proof.
  destruct (path_join_prefix dir) as [p ->]. rewrite <- str_app_assoc.
  set (s := p +:+ run_id). intros Heq.
  pose proof (f_equal String.length Heq) as Hlen.
  rewrite str_length_app in Hlen. simpl in Hlen.
  assert (String.length s = 9) as Hs by lia.
  pose proof (drop_app_length s "_final.png") as Hd.
  rewrite Heq, Hs in Hd. by vm_compute in Hd.
Qed.

(** C10. The [final_screenshot] field of every result document the runner
    writes is the text [artifacts/final.png]: it is not the path
    [/work/final.png] at which the runner writes the screenshot file, and
    it is not the run-id-qualified path under which [run_in_docker] stores
    the durable copy, which hands the document on as parsed. *)
Theorem final_screenshot_field_is_constant :
  (∀ sb sb', main sb = (Return (), sb') →
     ∃ out,
       files sb' !! OUT_PATH = Some (json_dumps (out_json out))
       ∧ Py.getitem (out_json out) "final_screenshot"
           = Return (JStr "artifacts/final.png")
       ∧ is_Some (files sb' !! FINAL_SCREENSHOT_PATH)
       ∧ FINAL_SCREENSHOT_PATH ≠ "artifacts/final.png"%string)
  ∧ (∀ run_id plan headless h rid result shot doc lo le h',
       run_in_docker run_id plan headless h
         = (Return (ExecOk rid result shot doc lo le), h') →
       shot = Py.path_join ARTIFACTS_DIR (run_id +:+ "_final.png")
       ∧ shot ≠ "artifacts/final.png"%string
       ∧ ∃ text, work_dir run_id h' !! "result.json"%string = Some text
                 ∧ json_loads text = Return result).
Proof.
  split.
  - intros sb sb' Hmain.
    destruct (main_inv sb sb' Hmain)
      as (text & req & plan & steps & s_open & out & s_run
          & _ & _ & _ & _ & Hrun & Hfiles).
    destruct (run_plan_inv _ _ _ _ Hrun) as (Hshot & _ & _ & _ & Hpng).
    exists out. rewrite Hfiles, lookup_insert_eq.
    rewrite lookup_insert_ne by done.
    split; [done|]. split; [|done].
    unfold Py.getitem, out_json, dict. rewrite Hshot. reflexivity.
  - intros run_id plan headless h rid result shot doc lo le h' Hrun.
    destruct (run_in_docker_success_inv _ _ _ _ _ _ _ _ _ _ _ Hrun)
      as (-> & text & png & Htext & Hload & _ & _).
    split; [done|]. split; [apply durable_name_differs|]. eauto.
Qed.

End Screenshot.


(* ===================================================================== *)
(** * The statements above, run on the concrete environments *)
(* ===================================================================== *)

Lemma groq_plan_completion_failure_escapes_witness :
  @groq_plan (Demo.env (Some Demo.unreachable) 1000) Demo.codec Demo.repr
    "Buy the notebook" "Gift wrap, please"
  = Raise (ExternalError "Connection error.").
Proof.
  apply (@groq_plan_completion_failure_escapes
           (Demo.env (Some Demo.unreachable) 1000) Demo.codec Demo.repr
           Demo.unreachable); reflexivity.
Defined.

Lemma groq_plan_without_service_witness :
  @groq_plan (Demo.env None 1000) Demo.codec Demo.repr EmptyString DEFAULT_NOTE
  = Return (JArr [go_step "https://chikarahouses.com/products/hardcover-bound-notebook-3";
                  click_step "Add to cart"; click_step "View cart";
                  type_step "Order special instructions"
                            "Shibuya Tokyo Cyberpunk demo note."]).
Proof.
  destruct (@groq_plan_without_service (Demo.env None 1000) Demo.codec Demo.repr
              EmptyString DEFAULT_NOTE eq_refl) as (Hplan & Hsteps & _).
  rewrite Hplan. f_equal.
Defined.

Lemma validate_plan_length_rules_witness :
  @validate_plan Demo.repr (JStr "go") = Return (false, "Plan must be a list."%string)
  ∧ @validate_plan Demo.repr (JArr []) = Return (false, "Plan is empty."%string)
  ∧ @validate_plan Demo.repr (JArr (replicate 11 (go_step "https://shop.test")))
    = Return (false, "Plan too long (max 10 steps)."%string)
  ∧ ¬ length_reason "Step 0 must be an object.".
Proof.
  split; [|split; [|split]].
  - apply (@validate_plan_length_rules Demo.repr (JStr "go")). by intros l.
  - by apply (@validate_plan_length_rules Demo.repr (JArr []) ) with (l := []).
  - apply (@validate_plan_length_rules Demo.repr (JArr (replicate 11 (go_step "https://shop.test"))))
      with (l := replicate 11 (go_step "https://shop.test")); [done|simpl; lia].
  - eapply (@validate_plan_length_rules Demo.repr (JArr [JNull])) with (l := [JNull]);
      [done|simpl; lia|reflexivity].
Defined.

Lemma dom_preview_within_limit_witness :
  @dom_preview_claim (Demo.env None 5) ("a" +:+ Py.nl +:+ "b" +:+ Py.tab +:+ "cdefgh").
Proof. apply (@dom_preview_within_limit (Demo.env None 5)). simpl. lia. Defined.


Lemma run_in_docker_missing_artifact_witness :
  let env := Demo.env None 1000 in
  let plan := @deterministic_demo_plan env "note" in
  let h1 := (@launch env Demo.codec (Demo.idle 0) "0123456789" plan true Demo.empty_host).2 in
  @run_in_docker env Demo.codec (Demo.idle 0) "0123456789" plan true Demo.empty_host
  = (Return (ExecFailed 0 "out"
               ("Traceback"
                  +:+ String (ascii_of_nat 10) "Missing result.json or final.png")),
     h1)
  ∧ artifacts h1 = ∅.
Proof.
  intros env plan h1.
  destruct (@run_in_docker_missing_artifact env Demo.codec (Demo.idle 0)
              "0123456789" plan true Demo.empty_host "out" "Traceback" h1)
    as (Hrun & _ & _ & _ & Hart); [reflexivity|by left|].
  split; [exact Hrun|exact Hart].
Defined.




(** The text of an exception may be empty: an engine whose click fails
    without a message leaves a failed entry whose error is the empty
    text. *)
Lemma run_step_error_may_be_empty :
  let r := @run_step Demo.repr Fixtures.mute 0 (click_step "Checkout now")
             Fixtures.mute_page in
  ∃ so, r.1 = Return so ∧ so_ok so = false ∧ so_error so = Some EmptyString.
Proof. intros r. eexists. split; [by vm_compute|]. by vm_compute. Qed.

Lemma final_screenshot_field_is_constant_witness :
  let env := Demo.env None 1000 in
  let run := @run_in_docker env Demo.codec Demo.working "0123456789"
               (@deterministic_demo_plan env "note") true Demo.empty_host in
  (∃ out, files (@main env Demo.codec Demo.repr Demo.shop Demo.disk Demo.sandbox).2 !! OUT_PATH
            = Some (@json_dumps Demo.codec (out_json out))
          ∧ Py.getitem (out_json out) "final_screenshot"
              = Return (JStr "artifacts/final.png"))
  ∧ run.1 = Return (ExecOk "0123456789" Demo.result_doc
                      "artifacts/0123456789_final.png"
                      "artifacts/0123456789_output.json" EmptyString EmptyString)
  ∧ "artifacts/0123456789_final.png"%string ≠ "artifacts/final.png"%string
  ∧ ∃ text, work_dir "0123456789" run.2 !! "result.json"%string = Some text
            ∧ @json_loads Demo.codec text = Return Demo.result_doc.
Proof.
  intros env run.
  destruct (@final_screenshot_field_is_constant env Demo.codec Demo.repr
              Demo.shop Demo.disk Demo.working) as [Hrunner Horch].
  split.
  - destruct (Hrunner Demo.sandbox
                (@main env Demo.codec Demo.repr Demo.shop Demo.disk Demo.sandbox).2 eq_refl)
      as (out & Hdoc & Hfield & _).
    exists out. split; [exact Hdoc|exact Hfield].
  - split; [vm_compute; reflexivity|].
    destruct (Horch "0123456789" (@deterministic_demo_plan env "note") true
                Demo.empty_host "0123456789" Demo.result_doc
                "artifacts/0123456789_final.png"
                "artifacts/0123456789_output.json" EmptyString EmptyString run.2)
      as (_ & Hne & Hdoc); [vm_compute; reflexivity|].
    split; [exact Hne|exact Hdoc].
Defined.

Lemma validate_plan_unhashable_tool_raises_witness :
  let step :=
    dict [("tool", JArr [JStr "go"]);
          ("args", dict [("url", JStr "https://example.com")])]%string in
  (∃ msg, @validate_plan Demo.repr (JArr [step]) = Raise (TypeError msg))
  ∧ ¬ conforms step.
Proof.
  apply (@validate_plan_unhashable_tool_raises Demo.repr []
           (list_to_map [("tool", JArr [JStr "go"]);
                         ("args", dict [("url", JStr "https://example.com")])]%string)
           (JArr [JStr "go"]) []);
    [simpl; lia|constructor|reflexivity|exact I].
Defined.

Lemma api_run_planner_failure_escapes_witness :
  let env := Demo.env (Some Demo.unreachable) 1000 in
  let body := dict [("goal", JStr "Buy the notebook");
                    ("note_text", JStr "Gift wrap, please")]%string in
  @api_run env Demo.codec Demo.repr (Demo.idle 0) body
     "0123456789" "2026-01-01T00:00:00" Demo.empty_host
  = (Raise (ExternalError "Connection error."), Demo.empty_host).
Proof.
  intros env body.
  apply (@api_run_planner_failure_escapes env Demo.codec Demo.repr (Demo.idle 0)
           body "Buy the notebook" "Gift wrap, please" JNull);
    try reflexivity.
  intros l. discriminate.
Defined.

(* ===================================================================== *)
(** * Further properties of the validator, planner, runner, orchestrator
      and routes *)
(* ===================================================================== *)

(** ** More on the validator *)

Section ValidatorMore.
Context {fmt : Repr}.

(** X1. [validate_plan] answers "valid" exactly for a list of one to ten
    items each of which is a record whose tool is one of go, click, type
    and whose [args] is a record with exactly the keys of that tool; the
    message is then "ok". *)
Theorem validate_plan_accepts_iff plan msg :
  validate_plan plan = Return (true, msg) ↔
  ∃ steps, plan = JArr steps ∧ 1 ≤ length steps ≤ 10
           ∧ Forall conforms steps ∧ msg = "ok"%string.
Proof.
  split.
  - destruct plan as [| | | | |steps|]; try done. unfold validate_plan.
    destruct (Nat.eqb_spec (length steps) 0); [done|].
    destruct (Nat.ltb_spec 10 (length steps)); [done|].
    intros [Hall ->]%validate_steps_true_iff.
    exists steps. repeat split; try done; lia.
  - intros (steps & -> & Hlen & Hall & ->).
    rewrite validate_plan_in_range by done. by apply validate_steps_true_iff.
Qed.

Lemma check_step_msg_index i step msg :
  check_step i step = Return (Some msg) →
  ∃ rest, msg = "Step " +:+ Py.str_nat i +:+ rest.
Proof.
  assert (∀ a : string,
            Return (Some ("Step " +:+ Py.str_nat i +:+ a)) = Return (Some msg) →
            ∃ rest, msg = "Step " +:+ Py.str_nat i +:+ rest) as Hshape.
  { intros a [= <-]. by exists a. }
  unfold check_step.
  destruct step as [| | | | | |d]; try apply Hshape.
  destruct (not_in_allowed_tools _) as [e|[]]; simpl; [done|apply Hshape|].
  destruct (Py.dict_get d "args" _); try apply Hshape.
  repeat (case_match; try done; try apply Hshape).
Qed.

Lemma validate_steps_first_violation i pre step post :
  Forall conforms pre → ¬ conforms step → hashable_tool step →
  ∃ rest, validate_steps i (pre ++ step :: post)
          = Return (false, "Step " +:+ Py.str_nat (i + length pre) +:+ rest).
Proof.
  intros Hpre Hbad Hhash. revert i.
  induction Hpre as [|st pre Hst _ IH]; intros i; simpl.
  - destruct (check_step_returns i step Hhash) as [[m|] Hc].
    + rewrite Hc. simpl. rewrite Nat.add_0_r.
      destruct (check_step_msg_index _ _ _ Hc) as [rest ->]. by exists rest.
    + by apply check_step_pass_iff in Hc.
  - apply (check_step_pass_iff i) in Hst. rewrite Hst. simpl.
    destruct (IH (S i)) as [rest Hr]. exists rest.
    by rewrite Hr, Nat.add_succ_r.
Qed.

(** X2. First violation wins, and the message names it. In a plan of one
    to ten items whose first [length pre] steps conform and whose next
    step does not (its tool being hashable), [validate_plan] answers
    "invalid" with a message that starts with "Step", the index of that
    step counted from 0, whatever follows it in the plan. *)
Theorem validate_plan_first_violation pre step post :
  1 ≤ length (pre ++ step :: post) ≤ 10 →
  Forall conforms pre → ¬ conforms step → hashable_tool step →
  ∃ rest, validate_plan (JArr (pre ++ step :: post))
          = Return (false, "Step " +:+ Py.str_nat (length pre) +:+ rest).
Proof.
  intros Hlen Hpre Hbad Hhash. rewrite validate_plan_in_range by done.
  by apply (validate_steps_first_violation 0).
Qed.

Lemma check_step_other_key i d k v :
  k ≠ "tool"%string → k ≠ "args"%string →
  check_step i (JObj (<[k := v]> d)) = check_step i (JObj d).
Proof.
  intros Ht Ha. unfold check_step, Py.dict_get.
  by rewrite !lookup_insert_ne.
Qed.

Lemma validate_steps_congr i pre step step' post :
  (∀ j, check_step j step' = check_step j step) →
  validate_steps i (pre ++ step' :: post) = validate_steps i (pre ++ step :: post).
Proof.
  intros Hsame. revert i. induction pre as [|st pre IH]; intros i; simpl.
  - by rewrite Hsame.
  - destruct (check_step i st) as [e|[m|]]; simpl; auto.
Qed.

(** X3. Keys of a step record other than [tool] and [args] play no part
    in the verdict: adding or changing one leaves the answer of
    [validate_plan] as it was. *)
Theorem validate_plan_ignores_other_step_keys pre d post k v :
  k ≠ "tool"%string → k ≠ "args"%string →
  validate_plan (JArr (pre ++ JObj (<[k := v]> d) :: post))
  = validate_plan (JArr (pre ++ JObj d :: post)).
Proof.
  intros Ht Ha. unfold validate_plan. rewrite !length_app. simpl.
  repeat case_match; try done.
  apply validate_steps_congr. intros j. by apply check_step_other_key.
Qed.

Lemma check_step_arg_values i d a a' :
  d !! "args"%string = Some (JObj a) → dom a' = dom a →
  check_step i (JObj (<["args"%string := JObj a']> d)) = check_step i (JObj d).
Proof.
  intros Hargs Hdom. unfold check_step, Py.dict_get.
  rewrite lookup_insert_ne by done. rewrite lookup_insert_eq, Hargs. simpl.
  unfold keys_differ. by rewrite Hdom.
Qed.

(** X4. The values under the keys of [args] play no part in the verdict:
    replacing the [args] record of a step by one with the same keys leaves
    the answer of [validate_plan] as it was (a URL, a text or a label is
    never looked at, nor is its type). *)
Theorem validate_plan_ignores_argument_values pre d a a' post :
  d !! "args"%string = Some (JObj a) → dom a' = dom a →
  validate_plan (JArr (pre ++ JObj (<["args"%string := JObj a']> d) :: post))
  = validate_plan (JArr (pre ++ JObj d :: post)).
Proof.
  intros Hargs Hdom. unfold validate_plan. rewrite !length_app. simpl.
  repeat case_match; try done.
  apply validate_steps_congr. intros j. by apply (check_step_arg_values j d a a').
Qed.
End ValidatorMore.

(** ** More on the runner *)

Section RunnerMore.
Context {env : Env} {codec : Codec} {fmt : Repr} {engine : Playwright}
        {disk : Disk}.

(** X9. The record of one step: it carries the index of the step; [ok]
    is true exactly when [error] is [None]; a step that went well has its
    URL and title; a failed step has no title; and the step has written
    no file. *)
Theorem run_step_record_invariant idx step sb so sb' :
  run_step idx step sb = (Return so, sb') →
  so_idx so = idx
  ∧ (so_ok so = true ↔ so_error so = None)
  ∧ (so_ok so = true → is_Some (so_url so) ∧ is_Some (so_title so))
  ∧ (so_ok so = false → so_title so = None)
  ∧ files sb' = files sb.
Proof.
  intros Hrun. split; [|split; [|split; [|split]]].
  - apply run_step_inv in Hrun as (Hrec & _). by destruct Hrec.
  - apply run_step_inv in Hrun as (_ & Hf & Ht).
    destruct (so_ok so); split; try done.
    + intros _. by apply Ht.
    + intros Hnone. destruct Hf as [e He]; [done|]. congruence.
  - apply run_step_inv in Hrun as (_ & _ & Ht).
    intros Hok. by destruct (Ht Hok) as (_ & ? & ?).
  - intros Hfail. revert Hrun. unfold run_step. intros Hrun.
    apply St_bind_inv in Hrun as (tool & s1 & _ & Hrun).
    apply St_bind_inv in Hrun as (args & s2 & _ & Hrun).
    apply St_bind_inv in Hrun as ([e|url] & s3 & _ & Hrun).
    { by injection Hrun as <- _. }
    apply St_bind_inv in Hrun as ([e|title] & s4 & _ & Hrun);
      injection Hrun as <- _; [done|]. by simpl in Hfail.
  - by apply keeps_files_step in Hrun.
Qed.

(** The log of the loop, from any starting point. *)
Lemma run_steps_log idx plan out0 sb out sb' :
  run_steps idx plan out0 sb = (Return out, sb') →
  ∃ sos, out_steps out = out_steps out0 ++ sos
    ∧ length sos ≤ length plan
    ∧ (∀ i so, sos !! i = Some so →
         so_idx so = idx + i ∧ (so_ok so = false → S i = length sos))
    ∧ out_ok out = (out_ok out0 && forallb so_ok sos)
    ∧ (forallb so_ok sos = true → length sos = length plan).
Proof.
  revert idx out0 sb. induction plan as [|step rest IH]; intros idx out0 sb.
  - simpl. intros [= <- <-]. exists []. rewrite app_nil_r, andb_true_r.
    split; [done|]. split; [done|]. split; [by intros i so|]. done.
  - intros (so & sb1 & Hs & Hrest)%run_steps_cons_inv.
    apply run_step_inv in Hs as (Hrec & _). destruct Hrec as (Hidx & _).
    destruct (so_ok so) eqn:Hso.
    + destruct (IH _ _ _ Hrest) as (sos & Hsteps & Hlen & Hent & Hok & Hall).
      exists (so :: sos). simpl in Hsteps, Hok. simpl. rewrite Hso in *.
      rewrite Hsteps, <- app_assoc. split; [done|]. split; [lia|].
      split; [|split; [done|intros ?; f_equal; auto]].
      intros [|i] so'; simpl.
      * intros [= <-]. rewrite Nat.add_0_r. split; [done|congruence].
      * intros Hso'. destruct (Hent _ _ Hso') as [-> Hlast].
        split; [lia|]. intros ?. f_equal. auto.
    + destruct Hrest as [-> ->]. exists [so]. simpl. rewrite Hso. simpl.
      rewrite andb_false_r. split; [done|]. split; [lia|].
      split; [|done]. intros [|i] so'; [|done]. simpl. intros [= <-].
      by rewrite Nat.add_0_r.
Qed.

(** X10. The log of the loop: at most one entry per step of the plan,
    entry [i] carrying index [i]; only the last entry can be a failed one;
    [out["ok"]] is true exactly when every entry is; then there is one
    entry for every step of the plan; otherwise the last entry is a failed
    one; and the loop has written no file. *)
Theorem run_steps_log_invariant plan sb out sb' :
  run_steps 0 plan initial_out sb = (Return out, sb') →
  length (out_steps out) ≤ length plan
  ∧ (∀ i so, out_steps out !! i = Some so →
       so_idx so = i ∧ (so_ok so = false → S i = length (out_steps out)))
  ∧ out_ok out = forallb so_ok (out_steps out)
  ∧ (out_ok out = true → length (out_steps out) = length plan)
  ∧ (out_ok out = false →
       ∃ so, last (out_steps out) = Some so ∧ so_ok so = false)
  ∧ files sb' = files sb.
Proof.
  intros Hrun.
  destruct (run_steps_log _ _ _ _ _ _ Hrun) as (sos & Hsteps & Hlen & Hent & Hok & Hall).
  simpl in Hsteps, Hok. rewrite Hsteps.
  split; [done|]. split; [done|]. split; [done|]. split; [by rewrite Hok|].
  split; [|by apply keeps_files_steps in Hrun].
  rewrite Hok. intros Hbad.
  assert (∃ i so, sos !! i = Some so ∧ so_ok so = false) as (i & so & Hi & Hso).
  { clear -Hbad. induction sos as [|so sos IH]; [done|]. simpl in Hbad.
    destruct (so_ok so) eqn:Hso.
    - destruct (IH Hbad) as (i & so' & ? & ?). by exists (S i), so'.
    - by exists 0, so. }
  exists so. split; [|done].
  destruct (Hent _ _ Hi) as [_ Hlast]. specialize (Hlast Hso).
  rewrite last_lookup, <- Hlast. simpl. done.
Qed.

Lemma validate_plan_true_inv plan msg :
  validate_plan plan = Return (true, msg) →
  ∃ steps, plan = JArr steps ∧ 1 ≤ length steps ≤ 10 ∧ Forall conforms steps.
Proof.
  destruct plan as [| | | | |steps|]; try done. unfold validate_plan.
  destruct (Nat.eqb_spec (length steps) 0); [done|].
  destruct (Nat.ltb_spec 10 (length steps)); [done|].
  intros [Hall _]%validate_steps_true_iff.
  exists steps. repeat split; try done; lia.
Qed.

Lemma conforms_subscripts step :
  conforms step →
  ∃ tool args, Py.getitem step "tool" = Return tool
               ∧ Py.getitem step "args" = Return args.
Proof.
  intros (d & t & a & -> & Ht & Ha & _). simpl. rewrite Ht, Ha. eauto.
Qed.

Lemma run_step_returns idx step tool args sb :
  Py.getitem step "tool" = Return tool → Py.getitem step "args" = Return args →
  ∃ so sb', run_step idx step sb = (Return so, sb').
Proof.
  intros Ht Ha. unfold run_step, mbind, St_bind, lift, try_catch.
  rewrite Ht, Ha.
  destruct (step_action tool args sb) as [[e|[]] s1]; [by eexists _, _|].
  destruct (get_url s1) as [[e|url] s2]; [by eexists _, _|].
  destruct (await page_title s2) as [[e|title] s3]; by eexists _, _.
Qed.

(** X5. On a plan that [validate_plan] accepts, the loop of the runner
    always runs to its end or to the first failed step: the subscripts
    [step["tool"]] and [step["args"]], which stand outside the [try], never
    raise, whatever the browser does. *)
Theorem validated_plan_runs_through steps msg sb :
  validate_plan (JArr steps) = Return (true, msg) →
  ∃ out sb', run_steps 0 steps initial_out sb = (Return out, sb').
Proof.
  intros (steps' & [= <-] & _ & Hall)%validate_plan_true_inv.
  generalize 0 initial_out. revert sb.
  induction Hall as [|step rest Hstep _ IH]; intros sb idx out; simpl.
  - by eexists _, _.
  - destruct (conforms_subscripts _ Hstep) as (tool & args & Ht & Ha).
    destruct (run_step_returns idx step tool args sb Ht Ha) as (so & sb1 & Hs).
    rewrite (St_bind_Return _ _ _ _ _ Hs).
    destruct (so_ok so); [apply IH|by eexists _, _].
Qed.

Lemma keeps_files_result {A} (m : St Sandbox A) : keeps_files m → keeps_result m.
Proof. intros Hm s r s' Hr. by rewrite (Hm _ _ _ Hr). Qed.

Lemma keeps_result_bind {A B} (m : St Sandbox A) (k : A → St Sandbox B) :
  keeps_result m → (∀ a, keeps_result (k a)) → keeps_result (m ≫= k).
Proof.
  intros Hm Hk s r s'. unfold mbind, St_bind.
  destruct (m s) as [[e|a] s1] eqn:Hms.
  - intros [= <- <-]. by eapply Hm.
  - intros Hka. rewrite (Hk a _ _ _ Hka). by eapply Hm.
Qed.

Lemma keeps_result_capture out : keeps_result (final_capture out).
Proof.
  unfold final_capture.
  apply keeps_result_bind; [apply keeps_files_result, keeps_files_get_url|intros url].
  apply keeps_result_bind; [apply keeps_files_result, keeps_files_await|intros title].
  apply keeps_result_bind; [apply keeps_files_result, keeps_files_await|intros png].
  apply keeps_result_bind.
  { intros s r s' Hw. by apply (write_file_other _ _ _ _ _ _ Hw). }
  intros _.
  apply keeps_result_bind; [apply keeps_files_result, keeps_files_await|intros html].
  apply keeps_files_result, keeps_files_ret.
Qed.

Lemma keeps_result_run_plan steps : keeps_result (run_plan steps).
Proof.
  unfold run_plan. apply keeps_result_bind;
    [apply keeps_files_result, keeps_files_steps|apply keeps_result_capture].
Qed.

(** One call of [main] before the final write: it raises and the result
    file is as it was, or [main] goes on. *)
Local Ltac before_write Hm Hk lem :=
  let e' := fresh "e" in let a := fresh "a" in let s1 := fresh "s" in
  let H1 := fresh "H" in
  let Hn := fresh "H" in
  apply St_bind_cases in Hm as [(e' & _ & Hm)|(a & s1 & H1 & Hm)];
  [left; exact (eq_trans (lem _ _ _ Hm) Hk)|
   pose proof (eq_trans (lem _ _ _ H1) Hk) as Hn; clear Hk; rename Hn into Hk].

(** X11. Nothing before the final write touches the result file. Whenever
    [main] raises, [result.json] is as it was before, with one exception:
    the final write itself failed once the file was open, and so
    truncated. Then the run had completed, the exception is that of the
    write, and the file holds the characters written so far, a prefix of
    the result document. *)
Theorem main_failure_result_file sb e sb' :
  main sb = (Raise e, sb') →
  files sb' !! OUT_PATH = files sb !! OUT_PATH
  ∨ ∃ steps s_open out s_run written,
      run_plan steps s_open = (Return out, s_run)
      ∧ write_fault (files s_run) OUT_PATH (json_dumps (out_json out))
        = Some (WriteFails e written)
      ∧ files sb' !! OUT_PATH
        = Some (Py.take written (json_dumps (out_json out))).
Proof.
  unfold main. intros Hm.
  assert (files sb !! OUT_PATH = files sb !! OUT_PATH) as Hk by done.
  before_write Hm Hk uconstr:(keeps_files_result _ (keeps_files_read REQ_PATH)).
  before_write Hm Hk uconstr:(keeps_files_result _ (keeps_files_lift _)).
  before_write Hm Hk
    uconstr:(keeps_files_result _ (keeps_files_lift _)).
  before_write Hm Hk
    uconstr:(keeps_files_result _ (keeps_files_lift _)).
  before_write Hm Hk
    uconstr:(keeps_files_result _ (keeps_files_await _)).
  before_write Hm Hk
    uconstr:(keeps_files_result _ (keeps_files_await _)).
  before_write Hm Hk uconstr:(keeps_files_result _ (keeps_files_await _)).
  before_write Hm Hk uconstr:(keeps_files_result _ (keeps_files_lift _)).
  apply St_bind_cases in Hm as [(e' & _ & Hm)|(out & s_run & Hrun & Hm)];
    [left; exact (eq_trans (keeps_result_run_plan _ _ _ _ Hm) Hk)|].
  pose proof (eq_trans (keeps_result_run_plan _ _ _ _ Hrun) Hk) as Hk'.
  apply St_bind_cases in Hm as [(e' & _ & Hm)|([] & s_cc & Hcc & Hm)];
    [left; by rewrite (await_files _ _ _ _ Hm)|].
  apply St_bind_cases in Hm as [(e' & _ & Hm)|([] & s_bc & Hbc & Hm)];
    [left; by rewrite (await_files _ _ _ _ Hm), (await_files _ _ _ _ Hcc)|].
  apply await_files in Hcc, Hbc.
  apply write_file_raise_inv in Hm as [->|(n & Hfault & Hfiles)];
    [left; by rewrite Hbc, Hcc|].
  right. eexists _, _, out, s_run, n. rewrite Hbc, Hcc in Hfault.
  split; [exact Hrun|]. split; [done|]. by rewrite Hfiles, lookup_insert_eq.
Qed.
End RunnerMore.

Section PreviewMore.
Context {env : Env}.

Lemma length_replace_char a b s :
  String.length (Py.replace_char a b s) = String.length s.
Proof. induction s as [|c s IH]; simpl; [done|by rewrite IH]. Qed.

(** X12. The length of the preview, for any limit: the shorter of the
    limit and the length of the markup when the limit is not negative;
    when it is negative, the length of the markup less the size of the
    limit, or zero. *)
Theorem dom_preview_length html :
  Z.of_nat (String.length (dom_preview html)) =
    let len := Z.of_nat (String.length html) in
    if (DOM_PREVIEW_LIMIT <? 0)%Z then Z.max 0 (len + DOM_PREVIEW_LIMIT)
    else Z.min DOM_PREVIEW_LIMIT len.
Proof.
  unfold dom_preview, Py.slice_to. rewrite length_take, !length_replace_char.
  simpl. destruct (Z.ltb_spec DOM_PREVIEW_LIMIT 0); lia.
Qed.
End PreviewMore.

(** ** More on the planner *)

Section PlannerMore.
Context {env : Env} {codec : Codec} {fmt : Repr}.

(** X6. Whatever [groq_plan] returns passes [validate_plan], and it is
    either the demo plan for the note or the very structure parsed from
    the completion of the configured client. *)
Theorem groq_plan_result_origin user_goal note_text plan :
  groq_plan user_goal note_text = Return plan →
  validate_plan plan = Return (true, "ok"%string)
  ∧ (plan = deterministic_demo_plan note_text
     ∨ ∃ client content,
         groq_client = Some client
         ∧ planner_call client (planner_system note_text) user_goal
             = Return content
         ∧ json_loads content = Return plan).
Proof.
  intros Hplan. split; [by apply (groq_plan_returns_valid user_goal note_text)|].
  revert Hplan. unfold groq_plan.
  destruct groq_client as [client|]; [|intros [= <-]; by left].
  destruct (planner_call client _ _) as [e|content] eqn:Hcall; [done|].
  intros [= <-].
  destruct (json_loads content) as [e|parsed] eqn:Hload; [by left|].
  unfold mbind, result_bind, rbind, try_except.
  destruct (validate_plan parsed) as [e|[[] msg]]; [by left| |by left].
  right. by exists client, content.
Qed.

(** X7. Once the completion call has returned its text, output that is
    not JSON, or that parses to something [validate_plan] does not accept
    (rejects, or raises on), makes [groq_plan] return the demo plan for the
    note. *)
Theorem groq_plan_bad_output_gives_demo_plan client user_goal note_text content :
  groq_client = Some client →
  planner_call client (planner_system note_text) user_goal = Return content →
  (∀ plan, json_loads content = Return plan →
           validate_plan plan ≠ Return (true, "ok"%string)) →
  groq_plan user_goal note_text = Return (deterministic_demo_plan note_text).
Proof.
  intros Hclient Hcall Hbad. unfold groq_plan. rewrite Hclient, Hcall.
  unfold mbind at 1, result_bind at 1, rbind at 1. f_equal.
  destruct (json_loads content) as [e|plan] eqn:Hload; [done|].
  unfold mbind, result_bind, rbind, try_except.
  destruct (validate_plan plan) as [e|[[] msg]] eqn:Hv; try done.
  destruct (Hbad plan eq_refl). by rewrite Hv, (validate_plan_true_ok _ _ Hv).
Qed.
End PlannerMore.

(** ** More on the plan route and the plan selection *)

Section RoutesMore.
Context {env : Env} {codec : Codec} {fmt : Repr} {os : Executor}.

(** X8. Whenever [api_plan] answers, its [ok] is true and its note is
    "ok": the plan it reports has passed [validate_plan], so the route
    never reports a validation failure. *)
Theorem api_plan_reports_ok body ok plan note :
  api_plan body = Return (PlanResponse ok plan note) →
  ok = true ∧ note = "ok"%string
  ∧ validate_plan plan = Return (true, "ok"%string).
Proof.
  unfold api_plan.
  destruct (text_field _ "goal") as [e|goal]; [done|].
  destruct (text_field _ "note_text") as [e|note']; [done|].
  unfold mbind, result_bind, rbind.
  destruct (groq_plan _ _) as [e|p] eqn:Hp; [done|].
  apply groq_plan_returns_valid in Hp. rewrite Hp. by intros [= <- <- <-].
Qed.

Lemma str_or_nonempty s dflt : dflt ≠ EmptyString → str_or s dflt ≠ EmptyString.
Proof.
  intros Hd. unfold str_or. by destruct (String.eqb_spec s EmptyString).
Qed.

(** X16. Whatever plan the head of [api_run] selects for execution has
    passed [validate_plan], and the goal and the note that go with it are
    never empty (the defaults stand in). *)
Theorem select_plan_result_sound body goal note_text plan :
  select_plan body = Return (goal, note_text, plan) →
  validate_plan plan = Return (true, "ok"%string)
  ∧ goal ≠ EmptyString ∧ note_text ≠ EmptyString.
Proof.
  unfold select_plan.
  destruct (text_field _ "goal") as [e|g]; [done|].
  destruct (text_field _ "note_text") as [e|n]; [done|].
  unfold mbind at 1 2, result_bind at 1 2, rbind at 1 2.
  destruct (Py.get _ "plan" JNull) as [e|p]; [done|].
  unfold mbind, result_bind, rbind.
  destruct (match p with JArr _ => Return p | _ => _ end) as [e|p'] eqn:Hp';
    [done|].
  destruct (validate_plan p') as [e|[ok msg]] eqn:Hv; [done|].
  intros [= <- <- <-]. split; [|split; by apply str_or_nonempty].
  destruct ok; [|apply demo_plan_valid].
  by rewrite Hv, (validate_plan_true_ok _ _ Hv).
Qed.

(** X17. A request that carries a list as its plan never reaches the
    planner: when [validate_plan] accepts the list it is selected as it
    is, and when [validate_plan] rejects it the demo plan for the note is
    selected. *)
Theorem select_plan_supplied_plan body goal note steps ok msg :
  let data := Py.or_else body (JObj ∅) in
  text_field data "goal" = Return goal →
  text_field data "note_text" = Return note →
  Py.get data "plan" JNull = Return (JArr steps) →
  validate_plan (JArr steps) = Return (ok, msg) →
  select_plan body =
    Return (str_or goal DEFAULT_GOAL, str_or note DEFAULT_NOTE,
            if ok then JArr steps
            else deterministic_demo_plan (str_or note DEFAULT_NOTE)).
Proof.
  intros data Hg Hn Hp Hv.
  rewrite (select_plan_fields body goal note _ Hg Hn Hp).
  cbv zeta. unfold mbind, result_bind, rbind. by rewrite Hv.
Qed.
End RoutesMore.

(** ** More on the orchestrator *)

Section StringsMore.
Implicit Types s t u : string.

Lemma str_app_nil_r s : s +:+ EmptyString = s.
Proof. induction s as [|c s IH]; [done|]. by rewrite str_app_cons, IH. Qed.

Lemma str_length_zero s : String.length s = 0 → s = EmptyString.
Proof. by destruct s. Qed.

(** Two ways of cutting one text: the shorter head is a head of the
    longer one. *)
Lemma str_app_eq_app s1 t1 s2 t2 :
  s1 +:+ t1 = s2 +:+ t2 → String.length s1 ≤ String.length s2 →
  ∃ u, s2 = s1 +:+ u ∧ t1 = u +:+ t2.
Proof.
  revert s2. induction s1 as [|c s1 IH]; intros s2 Heq Hlen.
  - by exists s2.
  - destruct s2 as [|c2 s2]; [simpl in Hlen; lia|].
    rewrite !str_app_cons in Heq. injection Heq as <- Heq.
    destruct (IH s2 Heq) as (u & -> & ->); [simpl in Hlen; lia|].
    by exists u.
Qed.

Lemma str_app_inv_tail s1 s2 t : s1 +:+ t = s2 +:+ t → s1 = s2.
Proof.
  intros Heq.
  assert (String.length s1 = String.length s2) as Hlen.
  { apply (f_equal String.length) in Heq. rewrite !str_length_app in Heq. lia. }
  destruct (str_app_eq_app _ _ _ _ Heq) as (u & -> & Ht); [lia|].
  rewrite str_length_app in Hlen.
  rewrite (str_length_zero u) by lia. by rewrite str_app_nil_r.
Qed.

Lemma suffixes_differ s1 s2 : s1 +:+ "_final.png" ≠ s2 +:+ "_output.json".
Proof.
  intros Heq.
  assert (String.length s1 = String.length s2 + 2) as Hlen.
  { apply (f_equal String.length) in Heq. rewrite !str_length_app in Heq.
    simpl in Heq. lia. }
  symmetry in Heq.
  destruct (str_app_eq_app _ _ _ _ Heq) as (u & -> & Ht); [lia|].
  rewrite str_length_app in Hlen.
  destruct u as [|a [|b [|c u]]]; simpl in Hlen; try lia.
  rewrite !str_app_cons in Ht. by injection Ht.
Qed.
End StringsMore.

Section OrchestratorMore.
Context {env : Env} {codec : Codec} {os : Executor}.

Lemma artifact_names_injective run_id other :
  other ≠ run_id →
  final_out_path other ≠ final_out_path run_id
  ∧ final_out_path other ≠ json_out_path run_id
  ∧ json_out_path other ≠ final_out_path run_id
  ∧ json_out_path other ≠ json_out_path run_id.
Proof.
  intros Hne. unfold final_out_path, json_out_path.
  destruct (path_join_prefix ARTIFACTS_DIR) as [p Hp]. rewrite !Hp.
  repeat split; intros Heq; apply str_app_inv_head in Heq.
  - by apply str_app_inv_tail in Heq.
  - by apply suffixes_differ in Heq.
  - symmetry in Heq. by apply suffixes_differ in Heq.
  - by apply str_app_inv_tail in Heq.
Qed.

Lemma launch_work_other run_id plan headless h r h1 :
  launch run_id plan headless h = (r, h1) →
  ∀ rid, rid ≠ run_id → work h1 !! rid = work h !! rid.
Proof.
  unfold launch, mbind, St_bind, work_write, docker. simpl.
  destruct (subprocess_exec _ _) as [r' d]. intros [= _ <-] rid Hne. simpl.
  by rewrite !lookup_insert_ne.
Qed.

(** What [run_in_docker] leaves alone, whatever its outcome. *)
Lemma run_in_docker_frame run_id plan headless h r h' :
  run_in_docker run_id plan headless h = (r, h') →
  runs h' = runs h
  ∧ (∀ rid, rid ≠ run_id → work h' !! rid = work h !! rid)
  ∧ (∀ p, p ≠ final_out_path run_id → p ≠ json_out_path run_id →
          artifacts h' !! p = artifacts h !! p).
Proof.
  rewrite run_in_docker_launch.
  destruct (launch run_id plan headless h) as [rl h1] eqn:Hl.
  pose proof (launch_keeps _ _ _ _ _ _ Hl) as [Hart Hruns].
  pose proof (launch_work_other _ _ _ _ _ _ Hl) as Hwork.
  assert (runs h1 = runs h
          ∧ (∀ rid, rid ≠ run_id → work h1 !! rid = work h !! rid)
          ∧ (∀ p, p ≠ final_out_path run_id → p ≠ json_out_path run_id →
                  artifacts h1 !! p = artifacts h !! p)) as Hsame.
  { split; [done|]. split; [done|]. intros. by rewrite Hart. }
  destruct rl as [e|[[rc out] err]]; [by intros [= _ <-]|].
  destruct (negb (rc =? 0)%Z); [by intros [= _ <-]|].
  destruct (work_dir run_id h1 !! "result.json"%string) as [text|];
    [|by intros [= _ <-]].
  destruct (work_dir run_id h1 !! "final.png"%string) as [png|];
    [|by intros [= _ <-]].
  simpl. intros Hres.
  assert (h' = {| work := work h1;
                  artifacts := <[json_out_path run_id := text]>
                                 (<[final_out_path run_id := png]> (artifacts h1));
                  runs := runs h1 |}) as ->.
  { by destruct (json_loads text); injection Hres as _ <-. }
  simpl. split; [done|]. split; [done|]. intros p Hp1 Hp2.
  by rewrite !lookup_insert_ne, Hart.
Qed.

(** X15. A run works on nothing but its own: whatever the outcome of
    [run_in_docker] for [run_id], the [runs] table is as before, and for
    every other run id the work area and the two durable artifacts of that
    run are untouched. *)
Theorem run_in_docker_isolation run_id other plan headless h r h' :
  other ≠ run_id →
  run_in_docker run_id plan headless h = (r, h') →
  runs h' = runs h
  ∧ work h' !! other = work h !! other
  ∧ artifacts h' !! final_out_path other = artifacts h !! final_out_path other
  ∧ artifacts h' !! json_out_path other = artifacts h !! json_out_path other.
Proof.
  intros Hne Hrun.
  destruct (artifact_names_injective run_id other Hne) as (? & ? & ? & ?).
  destruct (run_in_docker_frame _ _ _ _ _ _ Hrun) as (Hruns & Hwork & Hart).
  split; [done|]. split; [by apply Hwork|]. split; by apply Hart.
Qed.


End OrchestratorMore.

(** ** More on the run route *)

Section RunMore.
Context {env : Env} {codec : Codec} {fmt : Repr} {os : Executor}.

Lemma groq_vision_verify_keeps path h r h' :
  groq_vision_verify path h = (r, h') → h' = h.
Proof.
  unfold groq_vision_verify. destruct groq_client as [client|].
  - unfold mbind, St_bind, artifact_read.
    destruct (artifacts h !! path); by intros [= _ <-].
  - by intros [= _ <-].
Qed.

(** X21. The vision check never fails a run whose screenshot is there:
    without a client, or with the image in the artifact store,
    [groq_vision_verify] returns and leaves the host as it was; its answer
    is [None] without a client and [None] when the vision call raises. *)
Theorem groq_vision_verify_never_fails path h :
  groq_client = None ∨ is_Some (artifacts h !! path) →
  ∃ summary,
    groq_vision_verify path h = (Return summary, h)
    ∧ (groq_client = None → summary = None)
    ∧ (∀ client data e,
         groq_client = Some client → artifacts h !! path = Some data →
         vision_completions_create client GROQ_VISION_MODEL VISION_PROMPT
           (b64encode data) = Raise e →
         summary = None).
Proof.
  intros Hcond. unfold groq_vision_verify.
  destruct groq_client as [client|] eqn:Hc.
  - destruct Hcond as [|[data Hdata]]; [done|].
    unfold mbind at 1, St_bind, artifact_read. rewrite Hdata.
    eexists. split; [reflexivity|]. split; [done|].
    intros client' data' e [= <-] [= <-] Hraise. by rewrite Hraise.
  - exists None. split; [done|]. split; [done|]. by intros.
Qed.

(** The screenshot missing while a client is configured: the read of the
    image is outside the [try]. *)
Lemma groq_vision_verify_missing_image client path h :
  groq_client = Some client → artifacts h !! path = None →
  groq_vision_verify path h = (Raise (FileNotFoundError path), h).
Proof.
  intros Hc Hnone. unfold groq_vision_verify, mbind, St_bind, artifact_read.
  by rewrite Hc, Hnone.
Qed.

Lemma db_set_result_inv id text h r h' :
  db_set_result id text h = (r, h') →
  r = Return () ∧ work h' = work h ∧ artifacts h' = artifacts h
  ∧ (∀ row, runs h !! id = Some row →
       runs h' !! id =
         Some {| created_at := created_at row; user_goal := user_goal row;
                 plan_json := plan_json row; result_json := Some text |})
  ∧ (∀ id', id' ≠ id → runs h' !! id' = runs h !! id').
Proof.
  unfold db_set_result. intros [= <- <-]. simpl.
  split; [done|]. split; [done|]. split; [done|]. split.
  - intros row Hrow. by rewrite lookup_alter_eq, Hrow.
  - intros id' Hne. by rewrite lookup_alter_ne.
Qed.

(** With the image in the artifact store, the vision check returns. *)
Lemma groq_vision_verify_with_image path data h :
  artifacts h !! path = Some data →
  ∃ summary, groq_vision_verify path h = (Return summary, h).
Proof.
  intros Hdata. unfold groq_vision_verify.
  destruct groq_client as [client|]; [|by eexists].
  unfold mbind, St_bind, artifact_read. rewrite Hdata. by eexists.
Qed.

(** X22. After a successful [run_in_docker] the tail of [api_run] always
    answers with the payload of the run (the plan executed, the result and
    the two artifact paths as returned, the logs), whatever the vision
    service does; it touches neither the artifact store nor the work
    areas. *)
Theorem finish_run_after_harvest run_id plan headless h
    rid result shot doc lo le h1 :
  run_in_docker run_id plan headless h
    = (Return (ExecOk rid result shot doc lo le), h1) →
  ∃ summary h2,
    finish_run run_id plan (ExecOk rid result shot doc lo le) h1 =
      (Return (RunDone {| p_run_id := run_id; p_plan := plan;
                          p_final_screenshot := shot;
                          p_final_output_json := doc; p_result := result;
                          p_vision_summary := summary; p_logs := (lo, le) |}),
       h2)
    ∧ artifacts h2 = artifacts h1 ∧ work h2 = work h1.
Proof.
  intros Hrun.
  destruct (run_in_docker_success_inv _ _ _ _ _ _ _ _ _ _ _ Hrun)
    as (_ & text & png & _ & _ & _ & Hshot).
  destruct (groq_vision_verify_with_image shot png h1 Hshot) as (summary & Hv).
  exists summary. unfold finish_run.
  rewrite (St_bind_Return _ _ _ _ _ Hv).
  unfold mbind, St_bind, db_set_result. simpl. by eexists.
Qed.

(** X18. Whenever [api_run] answers, the run id was unused, a plan had
    been selected, and the row of the run now holds the time, the goal,
    the serialised plan and a result: the serialised failure record of the
    container run with status 500, or the serialised payload, whose plan is
    the selected one; the rows of other runs are untouched. *)
Theorem api_run_records_result body run_id now h resp h' :
  api_run body run_id now h = (Return resp, h') →
  ∃ goal note_text plan row text,
    select_plan body = Return (goal, note_text, plan)
    ∧ runs h !! run_id = None
    ∧ runs h' !! run_id = Some row
    ∧ created_at row = now ∧ user_goal row = goal
    ∧ plan_json row = json_dumps plan ∧ result_json row = Some text
    ∧ match resp with
      | RunFailed status exec_out =>
          status = 500%Z ∧ text = json_dumps (exec_out_json exec_out)
          ∧ ∃ rc out err, exec_out = ExecFailed rc out err
      | RunDone payload =>
          text = json_dumps (payload_json payload)
          ∧ p_plan payload = plan ∧ p_run_id payload = run_id
      | PlanResponse _ _ _ => False
      end
    ∧ (∀ id, id ≠ run_id → runs h' !! id = runs h !! id).
Proof.
  unfold api_run. intros Hrun.
  apply St_bind_inv in Hrun as ([[goal note_text] plan] & s1 & [Hsel ->]%lift_inv & Hrun).
  apply St_bind_inv in Hrun as ([] & h1 & Hins & Hrun).
  apply St_bind_inv in Hrun as (exec_out & h2 & Hexec & Hfin).
  unfold db_insert in Hins.
  destruct (runs h !! run_id) eqn:Hfresh; [done|]. injection Hins as <-.
  destruct (run_in_docker_frame _ _ _ _ _ _ Hexec) as (Hruns & _ & _).
  simpl in Hruns.
  set (row0 := {| created_at := now; user_goal := goal;
                  plan_json := json_dumps plan; result_json := None |}) in *.
  assert (runs h2 !! run_id = Some row0) as Hrow
    by (by rewrite Hruns, lookup_insert_eq).
  assert (∀ id, id ≠ run_id → runs h2 !! id = runs h !! id) as Hother
    by (intros id Hne; by rewrite Hruns, lookup_insert_ne).
  destruct exec_out as [rc out err|rid result shot doc lo le];
    unfold finish_run in Hfin.
  - apply St_bind_inv in Hfin as ([] & h3 & Hset & Hfin).
    apply db_set_result_inv in Hset as (_ & _ & _ & Hnew & Hold).
    injection Hfin as <- <-.
    eexists goal, note_text, plan, _, _. split; [done|]. split; [done|].
    split; [by apply Hnew|]. simpl.
    repeat split; eauto. intros id Hne. by rewrite Hold, Hother.
  - apply St_bind_inv in Hfin as (summary & h3 & Hv & Hfin).
    apply groq_vision_verify_keeps in Hv as ->.
    apply St_bind_inv in Hfin as ([] & h4 & Hset & Hfin).
    apply db_set_result_inv in Hset as (_ & _ & _ & Hnew & Hold).
    injection Hfin as <- <-.
    eexists goal, note_text, plan, _, _. split; [done|]. split; [done|].
    split; [by apply Hnew|]. simpl.
    repeat split; eauto. intros id Hne. by rewrite Hold, Hother.
Qed.

(** X19. The row is stored before the container is run: when
    [run_in_docker] raises, [api_run] raises the same and the row of the
    run stays behind with the plan and without a result. *)
Theorem api_run_crash_leaves_plan_row body run_id now h goal note_text plan e h1 :
  select_plan body = Return (goal, note_text, plan) →
  runs h !! run_id = None →
  run_in_docker run_id plan true
    {| work := work h; artifacts := artifacts h;
       runs := <[run_id := {| created_at := now; user_goal := goal;
                              plan_json := json_dumps plan;
                              result_json := None |}]> (runs h) |}
    = (Raise e, h1) →
  api_run body run_id now h = (Raise e, h1)
  ∧ runs h1 !! run_id =
      Some {| created_at := now; user_goal := goal;
              plan_json := json_dumps plan; result_json := None |}.
Proof.
  intros Hsel Hfresh Hexec. split.
  - rewrite (api_run_proceeds _ _ _ _ _ _ _ Hsel Hfresh).
    by apply St_bind_Raise.
  - destruct (run_in_docker_frame _ _ _ _ _ _ Hexec) as (-> & _ & _).
    simpl. by rewrite lookup_insert_eq.
Qed.

(** X20. A run id that is already in the [runs] table: the insert fails
    on the primary key, [api_run] raises, and nothing is stored or run. *)
Theorem api_run_duplicate_id body run_id now h goal note_text plan row :
  select_plan body = Return (goal, note_text, plan) →
  runs h !! run_id = Some row →
  api_run body run_id now h =
    (Raise (ExternalError "UNIQUE constraint failed: runs.id"), h).
Proof.
  intros Hsel Hrow. unfold api_run.
  rewrite (St_bind_Return _ _ h (goal, note_text, plan) h)
    by (unfold lift; by rewrite Hsel).
  simpl. apply St_bind_Raise. unfold db_insert. by rewrite Hrow.
Qed.
End RunMore.

(** ** These properties, run on the concrete environments *)

Lemma validate_plan_first_violation_witness :
  ∃ rest, @validate_plan Demo.repr
            (JArr ([go_step "https://shop.test/p/1"]
                     ++ Fixtures.scroll_step :: [click_step "View cart"]))
          = Return (false, "Step 1" +:+ rest).
Proof.
  apply (@validate_plan_first_violation Demo.repr
           [go_step "https://shop.test/p/1"] Fixtures.scroll_step
           [click_step "View cart"]).
  - simpl. lia.
  - constructor; [|constructor].
    by apply (@check_step_pass_iff Demo.repr 0).
  - intros Hc. by apply (@check_step_pass_iff Demo.repr 0) in Hc.
  - exact I.
Defined.

Lemma validate_plan_ignores_other_step_keys_witness :
  @validate_plan Demo.repr
    (JArr [dict [("comment", JStr "open the product page"); ("tool", JStr "go");
                 ("args", dict [("url", JStr "https://shop.test/p/1")])]%string])
  = Return (true, "ok"%string).
Proof.
  pose proof (@validate_plan_ignores_other_step_keys Demo.repr []
                (list_to_map [("tool", JStr "go");
                              ("args", dict [("url", JStr "https://shop.test/p/1")])]%string)
                [] "comment" (JStr "open the product page")) as Hsame.
  etransitivity; [apply Hsame; done|]. reflexivity.
Defined.

Lemma validate_plan_ignores_argument_values_witness :
  @validate_plan Demo.repr
    (JArr [dict [("tool", JStr "go");
                 ("args", dict [("url", JArr [JInt 1; JNull])])]%string])
  = Return (true, "ok"%string).
Proof.
  pose proof (@validate_plan_ignores_argument_values Demo.repr []
                (list_to_map [("tool", JStr "go");
                              ("args", dict [("url", JStr "https://shop.test/p/1")])]%string)
                (list_to_map [("url", JStr "https://shop.test/p/1")]%string)
                (list_to_map [("url", JArr [JInt 1; JNull])]%string)
                []) as Hsame.
  etransitivity; [apply Hsame|reflexivity].
  - reflexivity.
  - by vm_compute.
Defined.

Lemma validated_plan_runs_through_witness :
  ∃ out sb',
    @run_steps Demo.repr Demo.shop 0
      [go_step "https://shop.test/p/1"; click_step "Checkout now";
       click_step "View cart"] initial_out Demo.open_page
    = (Return out, sb').
Proof.
  apply (@validated_plan_runs_through Demo.repr Demo.shop _ "ok").
  reflexivity.
Defined.

Lemma groq_plan_result_origin_witness :
  let env := Demo.env (Some (Demo.answering (JStr " <request> "))) 1000 in
  @validate_plan Demo.repr (@deterministic_demo_plan env "Gift wrap")
    = Return (true, "ok"%string)
  ∧ (@deterministic_demo_plan env "Gift wrap" = @deterministic_demo_plan env "Gift wrap"
     ∨ ∃ client content,
         @groq_client env = Some client
         ∧ @planner_call env client (@planner_system env "Gift wrap") "Buy"
             = Return content
         ∧ @json_loads Demo.codec content = Return (@deterministic_demo_plan env "Gift wrap")).
Proof.
  intros env.
  apply (@groq_plan_result_origin env Demo.codec Demo.repr "Buy" "Gift wrap").
  reflexivity.
Defined.

Lemma groq_plan_bad_output_gives_demo_plan_witness :
  let env := Demo.env (Some (Demo.answering (JStr "Sure! Here is the plan:"))) 1000 in
  @groq_plan env Demo.codec Demo.repr "Buy" "Gift wrap"
  = Return (@deterministic_demo_plan env "Gift wrap").
Proof.
  intros env.
  apply (@groq_plan_bad_output_gives_demo_plan env Demo.codec Demo.repr
           (Demo.answering (JStr "Sure! Here is the plan:"))
           "Buy" "Gift wrap" "Sure! Here is the plan:");
    [reflexivity|reflexivity|].
  intros plan. by vm_compute.
Defined.

Lemma api_plan_reports_ok_witness :
  let env := Demo.env None 1000 in
  @api_plan env Demo.codec Demo.repr Fixtures.empty_body
    = Return (PlanResponse true (@deterministic_demo_plan env DEFAULT_NOTE) "ok")
  ∧ @validate_plan Demo.repr (@deterministic_demo_plan env DEFAULT_NOTE)
    = Return (true, "ok"%string).
Proof.
  intros env. split; [reflexivity|].
  apply (@api_plan_reports_ok env Demo.codec Demo.repr Fixtures.empty_body
           true (@deterministic_demo_plan env DEFAULT_NOTE) "ok").
  reflexivity.
Defined.

Lemma run_step_record_invariant_witness :
  let r := @run_step Demo.repr Demo.shop 3 (click_step "Checkout now")
             Demo.open_page in
  ∃ so, r.1 = Return so ∧ so_idx so = 3 ∧ so_ok so = false
        ∧ so_title so = None ∧ files r.2 = ∅.
Proof.
  intros r.
  pose (so := match r.1 with
              | Return so => so
              | Raise _ => Build_StepOut 0 JNull JNull true None None None
              end).
  destruct (@run_step_record_invariant Demo.repr Demo.shop 3
              (click_step "Checkout now") Demo.open_page so r.2)
    as (Hidx & _ & _ & Htitle & Hfiles); [vm_compute; reflexivity|].
  exists so. split; [vm_compute; reflexivity|]. split; [exact Hidx|].
  split; [reflexivity|]. split; [apply Htitle; reflexivity|exact Hfiles].
Defined.

Lemma run_steps_log_invariant_witness :
  let r := @run_steps Demo.repr Demo.shop 0
             [go_step "https://shop.test/p/1"; click_step "Checkout now";
              click_step "View cart"] initial_out Demo.open_page in
  ∃ out, r.1 = Return out ∧ length (out_steps out) ≤ 3
         ∧ out_ok out = forallb so_ok (out_steps out) ∧ files r.2 = ∅.
Proof.
  intros r.
  pose (out := match r.1 with Return o => o | Raise _ => initial_out end).
  destruct (@run_steps_log_invariant Demo.repr Demo.shop
              [go_step "https://shop.test/p/1"; click_step "Checkout now";
               click_step "View cart"] Demo.open_page out r.2)
    as (Hlen & _ & Hok & _ & _ & Hfiles); [vm_compute; reflexivity|].
  exists out. split; [vm_compute; reflexivity|]. split; [exact Hlen|].
  split; [exact Hok|exact Hfiles].
Defined.

Lemma main_failure_result_file_witness :
  let env := Demo.env None 1000 in
  let r := @main env Demo.codec Demo.repr Demo.shop Fixtures.full_disk
             Demo.sandbox in
  r.1 = Raise (ExternalError "[Errno 28] No space left on device")
  ∧ files r.2 !! OUT_PATH = Some "<doc"%string
  ∧ (files r.2 !! OUT_PATH = files Demo.sandbox !! OUT_PATH
     ∨ ∃ steps s_open out s_run written,
         @run_plan env Demo.repr Demo.shop Fixtures.full_disk steps s_open
           = (Return out, s_run)
         ∧ @write_fault Fixtures.full_disk (files s_run) OUT_PATH
             (@json_dumps Demo.codec (out_json out))
           = Some (WriteFails (ExternalError "[Errno 28] No space left on device")
                     written)
         ∧ files r.2 !! OUT_PATH
           = Some (Py.take written (@json_dumps Demo.codec (out_json out)))).
Proof.
  intros env r. split; [reflexivity|]. split; [reflexivity|].
  apply (@main_failure_result_file env Demo.codec Demo.repr Demo.shop
           Fixtures.full_disk Demo.sandbox).
  reflexivity.
Defined.



Lemma run_in_docker_isolation_witness :
  let env := Demo.env None 1000 in
  let plan := @deterministic_demo_plan env "note" in
  let r := @run_in_docker env Demo.codec Demo.working "0123456789" plan true
             Fixtures.busy_host in
  runs r.2 = runs Fixtures.busy_host
  ∧ artifacts r.2 !! "artifacts/aaaaaaaaaa_final.png"%string
    = Some "OLD PNG"%string
  ∧ artifacts r.2 !! "artifacts/aaaaaaaaaa_output.json"%string
    = Some "<result>"%string.
Proof.
  intros env plan r.
  destruct (@run_in_docker_isolation env Demo.codec Demo.working "0123456789"
              "aaaaaaaaaa" plan true Fixtures.busy_host r.1 r.2)
    as (Hruns & _ & Hpng & Hdoc); [done|apply surjective_pairing|].
  split; [exact Hruns|]. split; [exact Hpng|exact Hdoc].
Defined.

Lemma select_plan_result_sound_witness :
  let env := Demo.env None 1000 in
  @validate_plan Demo.repr (@deterministic_demo_plan env DEFAULT_NOTE)
    = Return (true, "ok"%string)
  ∧ DEFAULT_GOAL ≠ EmptyString ∧ DEFAULT_NOTE ≠ EmptyString.
Proof.
  intros env.
  apply (@select_plan_result_sound env Demo.codec Demo.repr Fixtures.empty_body).
  reflexivity.
Defined.

Lemma select_plan_supplied_plan_witness :
  let env := Demo.env (Some Demo.unreachable) 1000 in
  @select_plan env Demo.codec Demo.repr
    (Fixtures.body_with_plan (JArr [click_step "View cart"]))
  = Return ("Buy the notebook"%string, "Gift wrap"%string,
            JArr [click_step "View cart"])
  ∧ @select_plan env Demo.codec Demo.repr
      (Fixtures.body_with_plan (JArr [Fixtures.scroll_step]))
    = Return ("Buy the notebook"%string, "Gift wrap"%string,
              @deterministic_demo_plan env "Gift wrap").
Proof.
  intros env. split.
  - apply (@select_plan_supplied_plan env Demo.codec Demo.repr
             (Fixtures.body_with_plan (JArr [click_step "View cart"]))
             "Buy the notebook" "Gift wrap" [click_step "View cart"] true "ok");
      reflexivity.
  - apply (@select_plan_supplied_plan env Demo.codec Demo.repr
             (Fixtures.body_with_plan (JArr [Fixtures.scroll_step]))
             "Buy the notebook" "Gift wrap" [Fixtures.scroll_step] false
             "Step 0: tool 'scroll' not allowed."); reflexivity.
Defined.

Lemma api_run_records_result_witness :
  let env := Demo.env None 1000 in
  let r := @api_run env Demo.codec Demo.repr (Demo.idle 1) Fixtures.empty_body
             "0123456789" "2026-01-01T00:00:00" Fixtures.busy_host in
  r.1 = Return (RunFailed 500 (ExecFailed 1 "out" "Traceback"))
  ∧ (result_json <$> runs r.2 !! "0123456789"%string)
    = Some (Some "<document>"%string)
  ∧ runs r.2 !! "aaaaaaaaaa"%string = runs Fixtures.busy_host !! "aaaaaaaaaa"%string.
Proof.
  intros env r.
  destruct (@api_run_records_result env Demo.codec Demo.repr (Demo.idle 1)
              Fixtures.empty_body "0123456789" "2026-01-01T00:00:00"
              Fixtures.busy_host
              (RunFailed 500 (ExecFailed 1 "out" "Traceback")) r.2)
    as (goal & note & plan & row & text & _ & _ & Hrow & _ & _ & _ & Hres
        & (_ & Htext & _) & Hother); [reflexivity|].
  split; [reflexivity|]. split.
  - rewrite Hrow. simpl. rewrite Hres, Htext. reflexivity.
  - apply Hother. done.
Defined.

Lemma api_run_crash_leaves_plan_row_witness :
  let env := Demo.env None 1000 in
  let r := @api_run env Demo.codec Demo.repr Fixtures.no_docker
             Fixtures.empty_body "0123456789" "2026-01-01T00:00:00"
             Demo.empty_host in
  r.1 = Raise (FileNotFoundError "docker")
  ∧ (result_json <$> runs r.2 !! "0123456789"%string) = Some None.
Proof.
  intros env r.
  destruct (@api_run_crash_leaves_plan_row env Demo.codec Demo.repr
              Fixtures.no_docker Fixtures.empty_body "0123456789"
              "2026-01-01T00:00:00" Demo.empty_host
              DEFAULT_GOAL DEFAULT_NOTE (@deterministic_demo_plan env DEFAULT_NOTE)
              (FileNotFoundError "docker") r.2)
    as (Hrun & Hrow); try reflexivity.
  split; [reflexivity|]. by rewrite Hrow.
Defined.

Lemma api_run_duplicate_id_witness :
  let env := Demo.env None 1000 in
  @api_run env Demo.codec Demo.repr Demo.working Fixtures.empty_body
     "aaaaaaaaaa" "2026-01-01T00:00:00" Fixtures.busy_host
  = (Raise (ExternalError "UNIQUE constraint failed: runs.id"),
     Fixtures.busy_host).
Proof.
  intros env.
  eapply (@api_run_duplicate_id env Demo.codec Demo.repr Demo.working
            Fixtures.empty_body "aaaaaaaaaa" "2026-01-01T00:00:00"
            Fixtures.busy_host DEFAULT_GOAL DEFAULT_NOTE
            (@deterministic_demo_plan env DEFAULT_NOTE)); reflexivity.
Defined.

Lemma groq_vision_verify_never_fails_witness :
  let env := Demo.env (Some Demo.unreachable) 1000 in
  ∃ summary,
    @groq_vision_verify env Demo.codec "artifacts/aaaaaaaaaa_final.png"
      Fixtures.busy_host = (Return summary, Fixtures.busy_host)
    ∧ summary = None.
Proof.
  intros env.
  destruct (@groq_vision_verify_never_fails env Demo.codec
              "artifacts/aaaaaaaaaa_final.png" Fixtures.busy_host)
    as (summary & Hrun & _ & Hnone); [right; by eexists|].
  exists summary. split; [exact Hrun|].
  apply (Hnone Demo.unreachable "OLD PNG" (ExternalError "Connection error."));
    reflexivity.
Defined.

Lemma finish_run_after_harvest_witness :
  let env := Demo.env (Some Demo.unreachable) 1000 in
  let plan := @deterministic_demo_plan env "note" in
  let r := @run_in_docker env Demo.codec Demo.working "0123456789" plan true
             Demo.empty_host in
  ∃ payload h2,
    @finish_run env Demo.codec "0123456789" plan
      (ExecOk "0123456789" Demo.result_doc "artifacts/0123456789_final.png"
         "artifacts/0123456789_output.json" EmptyString EmptyString) r.2
    = (Return (RunDone payload), h2)
    ∧ p_result payload = Demo.result_doc.
Proof.
  intros env plan r.
  destruct (@finish_run_after_harvest env Demo.codec Demo.working "0123456789"
              plan true Demo.empty_host "0123456789" Demo.result_doc
              "artifacts/0123456789_final.png"
              "artifacts/0123456789_output.json" EmptyString EmptyString r.2)
    as (summary & h2 & Hfin & _); [reflexivity|].
  eexists _, h2. split; [exact Hfin|reflexivity].
Defined.
